(** * A shallow embedding of the [stats] library (PedroLucas63/statistics)

    The C++ sources embedded here are
    - [StatisticalTools.hpp]  ([factorial], [combination]),
    - [models/Binomial.hpp], [models/Geometric.hpp],
      [models/DiscreteUniform.hpp] (the three discrete distributions),
    - [Statistics.hpp] (the descriptive-statistics engine).

    Modelling conventions.
    - [int] is a 32-bit two's complement integer: a [Z] together with the
      wrap-around [Int.wrap] applied after every arithmetic operation.
      Integer division by zero has no result; it is the outcome [Undefined].
    - [double] is IEEE 754 binary64, i.e. Rocq's primitive [float], with
      the primitive operations for [+ - * / sqrt < ==].
    - [std::runtime_error] is the outcome [Throw what].
    - A non-[const] member function is a function from the object before
      the call to the outcome of the call paired with the object after it
      (also when the call throws). *)

From Stdlib Require Import ZArith Bool String Floats Lia.
From stdpp Require Import base option list gmap sorting.

Open Scope Z_scope.

(** ** Outcomes of a call *)

Inductive result (A : Type) : Type :=
| Ok (a : A)
| Throw (what : string)
| Undefined.

Arguments Ok {A} a.
Arguments Throw {A} what.
Arguments Undefined {A}.

Definition result_bind {A B} (r : result A) (k : A -> result B) : result B :=
  match r with
  | Ok a => k a
  | Throw w => Throw w
  | Undefined => Undefined
  end.

Notation "'do' x <- r ; k" := (result_bind r (fun x => k))
  (at level 10, x name, r at level 100, k at level 200).

Definition returns {A} (r : result A) : Prop := exists a, r = Ok a.
Definition raises {A} (r : result A) : Prop := exists w, r = Throw w.

(** A member function of an object of type [S]: the outcome and the object
    after the call. *)
Definition method (S A : Type) : Type := S -> result A * S.

Definition method_bind {S A B} (m : method S A) (k : A -> method S B)
  : method S B :=
  fun self =>
    match m self with
    | (Ok a, self') => k a self'
    | (Throw w, self') => (Throw w, self')
    | (Undefined, self') => (Undefined, self')
    end.

Notation "m1 'then_' m2" := (method_bind m1 (fun _ => m2))
  (at level 90, right associativity).

(** A constructor runs its body on the freshly initialised object; the
    object exists only when the body does not throw. *)
Definition construct {S} (init : S) (body : method S unit) : result S :=
  match body init with
  | (Ok _, self) => Ok self
  | (Throw w, _) => Throw w
  | (Undefined, _) => Undefined
  end.

(** ** 32-bit [int] *)

Definition int : Type := Z.

Module Int.
Definition min_signed : Z := - 2 ^ 31.
Definition max_signed : Z := 2 ^ 31 - 1.

Definition in_range (z : Z) : Prop := min_signed <= z <= max_signed.

Definition wrap (z : Z) : int := (z + 2 ^ 31) mod 2 ^ 32 - 2 ^ 31.

Definition add (a b : int) : int := wrap (a + b).
Definition sub (a b : int) : int := wrap (a - b).
Definition mul (a b : int) : int := wrap (a * b).

(** [a / b] on [int]: truncation towards zero; no result for [b = 0] (and
    for the one overflowing quotient). *)
Definition div (a b : int) : result int :=
  if b =? 0 then Undefined
  else if (a =? min_signed) && (b =? -1) then Undefined
  else Ok (Z.quot a b).

Arguments wrap z%_Z.
Arguments add (a b)%_Z.
Arguments sub (a b)%_Z.
Arguments mul (a b)%_Z.
Arguments div (a b)%_Z.
End Int.

(** ** [double] *)

Definition double : Type := float.

(** Conversion [int -> double] (exact: every [int] is a binary64 value). *)
Definition of_int (z : int) : double :=
  match z with
  | Z0 => 0%float
  | Zpos _ => PrimFloat.of_uint63 (Uint63.of_Z z)
  | Zneg _ => (- PrimFloat.of_uint63 (Uint63.of_Z (- z)))%float
  end.

Arguments of_int z%_Z.

(** [std::pow(x, n)] for an [int] exponent, the only way the library calls
    it. [pow] belongs to the C library, not to this repository; it is
    modelled by repeated multiplication ([x^0 = 1], [x^-n = 1 / x^n]), which
    is what [pow] returns whenever the products are exactly representable. *)
Definition pow (x : double) (n : int) : double :=
  match n with
  | Z0 => 1%float
  | Zpos p => Pos.iter_op PrimFloat.mul p x
  | Zneg p => (1 / Pos.iter_op PrimFloat.mul p x)%float
  end.

Arguments pow x%_float n%_Z.

(** ** StatisticalTools.hpp *)

Definition factorial_error : string :=
  "Factorial is not defined for negative numbers".

(** [factorial]; the recursion [x * factorial(x - 1)] is bounded by [fuel],
    and [factorial] supplies [x] units of it, which is always enough
    ([factorial_rec_fuel] below). The depth of the call stack is not
    modelled. *)
Fixpoint factorial_rec (fuel : nat) (x : int) : result int :=
  if x <? 0 then Throw factorial_error
  else if x <=? 1 then Ok 1
  else
    match fuel with
    | O => Undefined
    | S fuel' => do r <- factorial_rec fuel' (Int.sub x 1); Ok (Int.mul x r)
    end.

Definition factorial (x : int) : result int := factorial_rec (Z.to_nat x) x.

(** [factorial(n) / (factorial(n - x) * factorial(x))]. The three calls can
    only throw the same exception, so their order of evaluation does not
    show. *)
Definition combination (n x : int) : result int :=
  do fn <- factorial n;
  do fnx <- factorial (Int.sub n x);
  do fx <- factorial x;
  Int.div fn (Int.mul fnx fx).

(** The number of [k]-subsets of an [n]-set, by Pascal's rule: what
    [combination] is meant to compute. *)
Fixpoint choose (n k : nat) : Z :=
  match n, k with
  | _, O => 1
  | O, S _ => 0
  | S n', S k' => choose n' k' + choose n' k
  end.

(** The factorial of a natural number, without any bound: what [factorial]
    is meant to compute. *)
Fixpoint exact_factorial (n : nat) : Z :=
  match n with
  | O => 1
  | S n' => Z.of_nat n * exact_factorial n'
  end.


(** ** models/Binomial.hpp *)

Module Binomial.
Record t : Type := Build {
  numberOfTrials : int;
  probabilityOfSuccess : double
}.

Definition trials_error : string := "Number of trials is negative".
Definition probability_error : string :=
  "Probability of success is not between 0 and 1".

Definition checkNumberOfTrials : method t unit := fun self =>
  if numberOfTrials self <? 0
  then (Throw trials_error, self)
  else (Ok tt, self).

Definition checkProbabilityOfSuccess : method t unit := fun self =>
  if (probabilityOfSuccess self <? 0)%float
     || (1 <? probabilityOfSuccess self)%float
  then (Throw probability_error, self)
  else (Ok tt, self).

Definition checkDistribution : method t unit :=
  checkNumberOfTrials then_ checkProbabilityOfSuccess.

(** [Binomial(numberOfTrials, probabilityOfSuccess)] *)
Definition new (numberOfTrials : int) (probabilityOfSuccess : double)
  : result t :=
  construct (Build numberOfTrials probabilityOfSuccess) checkDistribution.

Definition getProbability (self : t) (numberOfSuccesses : int)
  : result double :=
  if (numberOfSuccesses <? 0) || (numberOfSuccesses >? numberOfTrials self)
  then Ok 0%float
  else
    do combinations <- combination (numberOfTrials self) numberOfSuccesses;
    let probabilityOfSuccesses :=
      pow (probabilityOfSuccess self) numberOfSuccesses in
    let probabilityOfFails :=
      pow (1 - probabilityOfSuccess self)%float
          (Int.sub (numberOfTrials self) numberOfSuccesses) in
    Ok (of_int combinations * probabilityOfSuccesses
        * probabilityOfFails)%float.

Definition setNumberOfTrials (numberOfTrials : int) : method t unit :=
  fun self =>
    checkDistribution (Build numberOfTrials (probabilityOfSuccess self)).

Definition setProbabilityOfSuccess (probabilityOfSuccess : double)
  : method t unit :=
  fun self =>
    checkDistribution (Build (numberOfTrials self) probabilityOfSuccess).

Definition mean (self : t) : double :=
  (of_int (numberOfTrials self) * probabilityOfSuccess self)%float.

Definition variance (self : t) : double :=
  (of_int (numberOfTrials self) * probabilityOfSuccess self
   * (1 - probabilityOfSuccess self))%float.

(** The objects a constructor call can produce. *)
Definition valid (self : t) : Prop :=
  Int.in_range (numberOfTrials self) /\
  new (numberOfTrials self) (probabilityOfSuccess self) = Ok self.
End Binomial.

(** ** models/Geometric.hpp *)

Module Geometric.
Record t : Type := Build {
  probabilityOfSuccess : double
}.

Definition probability_error : string :=
  "Probability of success is not between 0 and 1".

Definition checkProbabilityOfSuccess : method t unit := fun self =>
  if (probabilityOfSuccess self <? 0)%float
     || (1 <? probabilityOfSuccess self)%float
  then (Throw probability_error, self)
  else (Ok tt, self).

(** [Geometric(probabilityOfSuccess)] *)
Definition new (probabilityOfSuccess : double) : result t :=
  construct (Build probabilityOfSuccess) checkProbabilityOfSuccess.

Definition getProbability (self : t) (replicasMade : int) : double :=
  if replicasMade <? 0 then 0%float
  else (pow (1 - probabilityOfSuccess self) (Int.sub replicasMade 1)
        * probabilityOfSuccess self)%float.

Definition setProbabilityOfSuccess (probabilityOfSuccess : double)
  : method t unit :=
  fun _ => checkProbabilityOfSuccess (Build probabilityOfSuccess).

Definition mean (self : t) : double :=
  (1 / probabilityOfSuccess self)%float.

Definition variance (self : t) : double :=
  ((1 - probabilityOfSuccess self) / pow (probabilityOfSuccess self) 2)%float.

Definition valid (self : t) : Prop :=
  new (probabilityOfSuccess self) = Ok self.
End Geometric.

(** ** models/DiscreteUniform.hpp *)

Module DiscreteUniform.
Record t : Type := Build {
  firstValue : int;
  lastValue : int
}.

Definition interval_error : string :=
  "First value is greater than last value".

Definition checkInterval : method t unit := fun self =>
  if firstValue self >? lastValue self
  then (Throw interval_error, self)
  else (Ok tt, self).

(** [DiscreteUniform(firstValue, lastValue)] *)
Definition new (firstValue lastValue : int) : result t :=
  construct (Build firstValue lastValue) checkInterval.

Definition getProbability (self : t) (value : int) : double :=
  if (value <? firstValue self) || (value >? lastValue self) then 0%float
  else (1 / of_int (Int.add (Int.sub (lastValue self) (firstValue self)) 1))
       %float.

Definition setInterval (firstValue lastValue : int) : method t unit :=
  fun _ => checkInterval (Build firstValue lastValue).

(** [(firstValue + lastValue) / 2] is a division of [int]s, converted to
    [double] only on return. *)
Definition mean (self : t) : double :=
  of_int (Z.quot (Int.add (firstValue self) (lastValue self)) 2).

Definition variance (self : t) : double :=
  of_int (Z.quot (Int.mul (Int.sub (lastValue self) (firstValue self))
                          (Int.add (Int.sub (lastValue self)
                                            (firstValue self)) 2))
                 12).

Definition valid (self : t) : Prop :=
  Int.in_range (firstValue self) /\ Int.in_range (lastValue self) /\
  new (firstValue self) (lastValue self) = Ok self.
End DiscreteUniform.

(** ** Statistics.hpp *)

(** What [Statistics<TYPE>] uses of its arithmetic element type: the
    conversion to [double], [operator+], [operator-] and [operator<]. *)
Class Arithmetic (T : Type) : Type := {
  to_double : T -> double;
  plus : T -> T -> T;
  minus : T -> T -> T;
  less : T -> T -> bool
}.

#[export] Instance int_Arithmetic : Arithmetic int := {
  to_double := of_int;
  plus := Int.add;
  minus := Int.sub;
  less := Z.ltb
}.

(** [std::max_element(first, last, comp)]: the first element that no later
    one exceeds; [None] stands for the past-the-end iterator of an empty
    range. *)
Fixpoint max_element_from {A} (comp : A -> A -> bool) (largest : A)
  (l : list A) : A :=
  match l with
  | [] => largest
  | x :: l' => max_element_from comp (if comp largest x then x else largest) l'
  end.

Definition max_element {A} (comp : A -> A -> bool) (l : list A) : option A :=
  match l with
  | [] => None
  | x :: l' => Some (max_element_from comp x l')
  end.

Module Statistics.
Definition empty_error : string := "Values are empty".

Section Engine.
Context {T : Type} `{Arithmetic T} `{Countable T}.

(** The traversal order of [std::unordered_map], from [begin()] to
    [end()]: some enumeration of the entries, left unspecified. *)
Variable iteration : gmap T int -> list (T * int).

Record t : Type := Build {
  values : list T;
  populationData : bool
}.

Definition ensureNotEmpty (self : t) : result unit :=
  match values self with
  | [] => Throw empty_error
  | _ :: _ => Ok tt
  end.

Definition getValues (self : t) : list T := values self.
Definition isPopulationData (self : t) : bool := populationData self.

Definition setValues (list : list T) : method t unit :=
  fun self => (Ok tt, Build list (populationData self)).

Definition setPopulationData (populationData : bool) : method t unit :=
  fun self => (Ok tt, Build (values self) populationData).

(** [int size() const { return values.size(); }] *)
Definition size (self : t) : int :=
  Int.wrap (Z.of_nat (length (values self))).

Definition calculateSum (function : T -> double) (self : t) : double :=
  fold_left (fun sum value => (sum + function value)%float)
            (values self) 0%float.

(** The default argument of [calculateSum]: each element, converted. *)
Definition identity : T -> double := to_double.

Definition mean (self : t) : double :=
  match values self with
  | [] => 0%float
  | _ :: _ => (calculateSum identity self / of_int (size self))%float
  end.

(** [std::sort(values.begin(), values.end())], ascending by
    [operator<]. *)
Fixpoint insert_sorted (x : T) (l : list T) : list T :=
  match l with
  | [] => [x]
  | y :: l' => if less x y then x :: l else y :: insert_sorted x l'
  end.

Definition sort (l : list T) : list T := foldr insert_sorted [] l.

(** [values[i]] for an [int] index; reading outside the vector has no
    defined result. *)
Definition at_index (l : list T) (i : int) : result T :=
  if i <? 0 then Undefined
  else match l !! Z.to_nat i with
       | Some v => Ok v
       | None => Undefined
       end.

Definition median : method t double := fun self =>
  match ensureNotEmpty self with
  | Throw w => (Throw w, self)
  | Undefined => (Undefined, self)
  | Ok _ =>
      let self' := Build (sort (values self)) (populationData self) in
      let n := Z.of_nat (length (values self')) in
      let mid := Int.wrap (n / 2) in
      (if n mod 2 =? 0
       then do a <- at_index (values self') (Int.sub mid 1);
            do b <- at_index (values self') mid;
            Ok (to_double (plus a b) / 2)%float
       else do a <- at_index (values self') mid;
            Ok (to_double a),
       self')
  end.

(** [++frequency[value]]: a missing key is first inserted with 0. *)
Definition count_up (frequency : gmap T int) (value : T) : gmap T int :=
  <[value := Int.add (default 0 (frequency !! value)) 1]> frequency.

Definition frequencies (l : list T) : gmap T int :=
  fold_left count_up l ∅.

Definition mode (self : t) : result T :=
  do _ <- ensureNotEmpty self;
  let frequency := frequencies (values self) in
  match max_element (fun a b => snd a <? snd b) (iteration frequency) with
  | Some entry => Ok (fst entry)
  | None => Undefined
  end.

(** [std::minmax_element]: the first smallest and the last largest
    element. *)
Fixpoint minmax_from (smallest largest : T) (l : list T) : T * T :=
  match l with
  | [] => (smallest, largest)
  | x :: l' =>
      minmax_from (if less x smallest then x else smallest)
                  (if less x largest then largest else x) l'
  end.

Definition amplitude (self : t) : result T :=
  do _ <- ensureNotEmpty self;
  match values self with
  | [] => Undefined
  | x :: l =>
      let '(minValue, maxValue) := minmax_from x x l in
      Ok (minus maxValue minValue)
  end.

Definition variance (self : t) : double :=
  match values self with
  | [] => 0%float
  | _ :: _ =>
      let meanOfValues := mean self in
      let sumOfValues :=
        calculateSum
          (fun value => pow (to_double value - meanOfValues)%float 2)
          self in
      if populationData self
      then (sumOfValues / of_int (size self))%float
      else (sumOfValues / of_int (Int.sub (size self) 1))%float
  end.

Definition standardDeviation (self : t) : double :=
  PrimFloat.sqrt (variance self).

Definition coefficientOfVariation (self : t) : double :=
  if (mean self =? 0)%float then 0%float
  else (standardDeviation self / mean self)%float.

(** *** The statistics in the words of the specification *)

(** The sum of the squared deviations of the elements from [m]. *)
Definition sum_of_squared_deviations (m : double) (l : list T) : double :=
  fold_left
    (fun acc v => (acc + (to_double v - m) * (to_double v - m))%float)
    l 0%float.

(** The number of occurrences of [x] in [l]. *)
Definition occurrences (x : T) (l : list T) : Z :=
  Z.of_nat (length (filter (x =.) l)).
End Engine.

Arguments t T : clear implicits.
Arguments Build {T} values populationData.
End Statistics.

(** [std::unordered_map] traversals used to run [mode]: the entries in the
    order of [map_to_list], and in the opposite order. *)
Definition forward_iteration : gmap int int -> list (int * int) := map_to_list.
Definition backward_iteration : gmap int int -> list (int * int) :=
  fun m => reverse (map_to_list m).

(** * Properties *)

(** ** 32-bit arithmetic *)

Ltac int_range :=
  unfold Int.in_range, Int.min_signed, Int.max_signed in *; lia.

Lemma wrap_in_range (z : Z) : Int.in_range z -> Int.wrap z = z.
Proof.
  intros Hz. unfold Int.wrap. rewrite Z.mod_small; int_range.
Qed.

Lemma wrap_range (z : Z) : Int.in_range (Int.wrap z).
Proof.
  unfold Int.wrap, Int.in_range, Int.min_signed, Int.max_signed.
  pose proof (Z.mod_pos_bound (z + 2 ^ 31) (2 ^ 32) ltac:(lia)). lia.
Qed.

Lemma sub_in_range (a b : int) : Int.in_range (a - b) -> Int.sub a b = a - b.
Proof. apply wrap_in_range. Qed.

Lemma add_in_range (a b : int) : Int.in_range (a + b) -> Int.add a b = a + b.
Proof. apply wrap_in_range. Qed.

Lemma mul_in_range (a b : int) : Int.in_range (a * b) -> Int.mul a b = a * b.
Proof. apply wrap_in_range. Qed.

(** ** [factorial] *)

Lemma factorial_rec_negative (fuel : nat) (x : int) :
  x < 0 -> factorial_rec fuel x = Throw factorial_error.
Proof.
  intros Hx. destruct fuel; simpl; destruct (Z.ltb_spec x 0); auto; lia.
Qed.

(** With at least [x] units of fuel the recursion reaches its base case. *)
Lemma factorial_rec_fuel (fuel : nat) :
  forall x : int,
    0 <= x <= Int.max_signed -> (Z.to_nat x <= fuel)%nat ->
    returns (factorial_rec fuel x).
Proof.
  induction fuel as [|fuel IH]; intros x Hx Hfuel.
  - assert (x = 0) as -> by lia. now exists 1.
  - simpl. destruct (Z.ltb_spec x 0); [lia|].
    destruct (Z.leb_spec x 1); [now exists 1|].
    rewrite sub_in_range by int_range.
    destruct (IH (x - 1)) as [r ->]; [lia | lia |].
    simpl. now eexists.
Qed.

Lemma factorial_negative (x : int) :
  x < 0 -> factorial x = Throw factorial_error.
Proof. apply factorial_rec_negative. Qed.

Lemma factorial_returns (x : int) :
  0 <= x <= Int.max_signed -> returns (factorial x).
Proof. intros Hx. apply factorial_rec_fuel; [assumption | reflexivity]. Qed.

Lemma returns_not_raises {A} (r : result A) : returns r -> ~ raises r.
Proof. intros [a ->] [w Hw]. discriminate. Qed.

Lemma div_not_raises (a b : int) : ~ raises (Int.div a b).
Proof.
  unfold Int.div. intros [w Hw].
  destruct (b =? 0); [discriminate|].
  destruct ((a =? Int.min_signed) && (b =? -1)); discriminate.
Qed.

(** [combination] throws only through [factorial]. *)
Lemma combination_not_raises (n x : int) :
  Int.in_range n -> 0 <= x <= n -> ~ raises (combination n x).
Proof.
  intros Hn Hx. unfold combination.
  assert (Hr : 0 <= n - x <= Int.max_signed) by int_range.
  rewrite sub_in_range by int_range.
  destruct (factorial_returns n) as [fn ->];
    [int_range|].
  destruct (factorial_returns (n - x)) as [fnx ->]; [assumption|].
  destruct (factorial_returns x) as [fx ->];
    [int_range|].
  simpl. apply div_not_raises.
Qed.

(** ** Valid distribution objects *)

Lemma Binomial_valid_inv (self : Binomial.t) :
  Binomial.valid self ->
  0 <= Binomial.numberOfTrials self <= Int.max_signed /\
  (Binomial.probabilityOfSuccess self <? 0)%float = false /\
  (1 <? Binomial.probabilityOfSuccess self)%float = false.
Proof.
  destruct self as [n p]. unfold Binomial.valid, Binomial.new, construct,
    Binomial.checkDistribution, method_bind, Binomial.checkNumberOfTrials,
    Binomial.checkProbabilityOfSuccess, Int.in_range. cbn.
  intros [Hn Hnew]. revert Hnew.
  destruct (Z.ltb_spec n 0); cbn; [discriminate|].
  destruct (p <? 0)%float; cbn; [discriminate|].
  destruct (1 <? p)%float; cbn; [discriminate|].
  intros _. repeat split; auto; lia.
Qed.

(** C9: a validly constructed Binomial never raises from [getProbability]:
    outside the support the answer is 0 without any call to the
    combinatorics, and inside it the three arguments handed to [factorial]
    ([numberOfTrials], [numberOfSuccesses] and their difference) are
    non-negative, so each call returns and the error branch of [factorial]
    is not taken. *)
Theorem Binomial_getProbability_never_raises
  (self : Binomial.t) (numberOfSuccesses : int) :
  Binomial.valid self ->
  let n := Binomial.numberOfTrials self in
  let k := numberOfSuccesses in
  ~ raises (Binomial.getProbability self k) /\
  (k < 0 \/ n < k -> Binomial.getProbability self k = Ok 0%float) /\
  (0 <= k <= n ->
   0 <= n /\ 0 <= k /\ 0 <= Int.sub n k /\
   returns (factorial n) /\ returns (factorial k) /\
   returns (factorial (Int.sub n k))).
Proof.
  intros Hvalid n k.
  destruct (Binomial_valid_inv self Hvalid) as (Hn & _ & _).
  destruct Hvalid as [Hrange _]. fold n in Hn, Hrange.
  assert (Hout : k < 0 \/ n < k -> Binomial.getProbability self k = Ok 0%float).
  { intros Hk. unfold Binomial.getProbability. fold n.
    destruct (Z.ltb_spec k 0); [reflexivity|].
    destruct (Z.gtb_spec k n); [reflexivity|]. lia. }
  split; [|split; [exact Hout|]].
  - destruct (Z_lt_ge_dec k 0) as [Hk|Hk].
    { rewrite Hout by auto. intros [w Hw]. discriminate. }
    destruct (Z_lt_ge_dec n k) as [Hk'|Hk'].
    { rewrite Hout by auto. intros [w Hw]. discriminate. }
    unfold Binomial.getProbability. fold n.
    destruct (Z.ltb_spec k 0); [lia|].
    destruct (Z.gtb_spec k n); [lia|]. simpl.
    pose proof (combination_not_raises n k Hrange ltac:(lia)) as Hc.
    destruct (combination n k) as [c|w|]; simpl.
    + intros [w Hw]. discriminate.
    + exfalso. apply Hc. now exists w.
    + intros [w Hw]. discriminate.
  - intros Hk.
    assert (Int.sub n k = n - k) as -> by (apply sub_in_range; int_range).
    repeat split; try lia; apply factorial_returns; lia.
Qed.

Lemma Binomial_getProbability_never_raises_witness :
  let self := Binomial.Build 10 0.5%float in
  ~ raises (Binomial.getProbability self 5) /\
  returns (factorial 10) /\ returns (factorial 5) /\
  returns (factorial (Int.sub 10 5)).
Proof.
  intros self.
  assert (Hvalid : Binomial.valid self).
  { split; [vm_compute; split; discriminate | vm_compute; reflexivity]. }
  destruct (Binomial_getProbability_never_raises self 5 Hvalid)
    as (Hnever & _ & Hargs).
  split; [exact Hnever|].
  destruct Hargs as (_ & _ & _ & H1 & H2 & H3); [simpl; lia|].
  auto.
Defined.

(** ** [combination] against the binomial coefficient *)

(** Up to [n = 12] no factorial exceeds 32 bits and [combination] is the
    binomial coefficient. *)
Lemma combination_small (n x : int) :
  0 <= x <= n -> n <= 12 ->
  combination n x = Ok (choose (Z.to_nat n) (Z.to_nat x)).
Proof.
  intros Hx Hn.
  rewrite <- (Z2Nat.id n) at 1 by lia. rewrite <- (Z2Nat.id x) at 1 by lia.
  assert (Hn' : (Z.to_nat n <= 12)%nat) by lia.
  assert (Hx' : (Z.to_nat x <= Z.to_nat n)%nat) by lia.
  revert Hn' Hx'. generalize (Z.to_nat x) as k, (Z.to_nat n) as m.
  intros k m Hm Hk.
  do 13 (destruct m as [|m];
         [do 13 (destruct k as [|k];
                 [first [exfalso; lia | vm_compute; reflexivity]|]); lia|]).
  lia.
Qed.

Lemma Binomial_getProbability_outside (self : Binomial.t) (k : int) :
  k < 0 \/ Binomial.numberOfTrials self < k ->
  Binomial.getProbability self k = Ok 0%float.
Proof.
  intros Hk. unfold Binomial.getProbability.
  destruct (Z.ltb_spec k 0); [reflexivity|].
  destruct (Z.gtb_spec k (Binomial.numberOfTrials self)); [reflexivity|]. lia.
Qed.

Lemma Binomial_getProbability_inside (self : Binomial.t) (k : int) :
  Int.in_range (Binomial.numberOfTrials self) ->
  0 <= k <= Binomial.numberOfTrials self ->
  Binomial.getProbability self k =
  do c <- combination (Binomial.numberOfTrials self) k;
  Ok (of_int c * pow (Binomial.probabilityOfSuccess self) k
      * pow (1 - Binomial.probabilityOfSuccess self)
            (Binomial.numberOfTrials self - k))%float.
Proof.
  intros Hn Hk. unfold Binomial.getProbability.
  destruct (Z.ltb_spec k 0); [lia|].
  destruct (Z.gtb_spec k (Binomial.numberOfTrials self)); [lia|]. cbn.
  rewrite sub_in_range by int_range.
  reflexivity.
Qed.

(** C7, as amended: for a valid Binomial, [getProbability k] is 0 for
    [k < 0] and for [k > n], without raising; for [0 <= k <= n] it is
    [combination(n,k) * p^k * (1-p)^(n-k)] whenever [combination(n,k)], the
    quotient of the 32-bit factorials, has a value, and it has no value
    when that division has none; [combination(n,k)] is the binomial
    coefficient for [n <= 12]. *)
Theorem Binomial_getProbability_formula (self : Binomial.t) (k : int) :
  Binomial.valid self ->
  let n := Binomial.numberOfTrials self in
  let p := Binomial.probabilityOfSuccess self in
  (k < 0 \/ n < k -> Binomial.getProbability self k = Ok 0%float) /\
  (0 <= k <= n ->
   (forall c, combination n k = Ok c ->
      Binomial.getProbability self k =
      Ok (of_int c * pow p k * pow (1 - p) (n - k))%float) /\
   (combination n k = Undefined ->
      Binomial.getProbability self k = Undefined) /\
   ~ raises (combination n k)) /\
  (0 <= k <= n -> n <= 12 ->
   Binomial.getProbability self k =
   Ok (of_int (choose (Z.to_nat n) (Z.to_nat k))
       * pow p k * pow (1 - p) (n - k))%float).
Proof.
  intros [Hrange _] n p. fold n in Hrange.
  split; [apply Binomial_getProbability_outside|].
  split.
  - intros Hk. rewrite Binomial_getProbability_inside by assumption.
    fold n p. repeat split.
    + intros c ->. reflexivity.
    + intros ->. reflexivity.
    + now apply combination_not_raises.
  - intros Hk Hn. rewrite Binomial_getProbability_inside by assumption.
    fold n p. rewrite combination_small by assumption. reflexivity.
Qed.

Lemma Binomial_getProbability_formula_witness :
  let self := Binomial.Build 10 0.5%float in
  Binomial.getProbability self (-1) = Ok 0%float /\
  Binomial.getProbability self 11 = Ok 0%float /\
  Binomial.getProbability self 5 = Ok (252 / 1024)%float.
Proof.
  intros self.
  assert (Hvalid : Binomial.valid self).
  { split; [vm_compute; split; discriminate | vm_compute; reflexivity]. }
  destruct (Binomial_getProbability_formula self (-1) Hvalid) as (Hlow & _).
  destruct (Binomial_getProbability_formula self 11 Hvalid) as (Hhigh & _).
  destruct (Binomial_getProbability_formula self 5 Hvalid) as (_ & _ & Hin).
  split; [apply Hlow; left; reflexivity|].
  split; [apply Hhigh; right; reflexivity|].
  rewrite Hin; [vm_compute; reflexivity | simpl; lia | simpl; lia].
Defined.

(** C7, as stated, fails on valid objects: with 34 trials the wrapped
    product [factorial(34) * factorial(0)] is 0 and the division in
    [combination] has no result, so nothing is returned for [k = 0]; with
    13 trials [factorial(13)] has wrapped and the coefficient used for
    [k = 1] is 4 where [C(13,1) = 13]. *)
Lemma Binomial_getProbability_overflow :
  Binomial.valid (Binomial.Build 34 0.5%float) /\
  Binomial.getProbability (Binomial.Build 34 0.5%float) 0 = Undefined /\
  Binomial.valid (Binomial.Build 13 0.5%float) /\
  Binomial.getProbability (Binomial.Build 13 0.5%float) 1
  = Ok (4 * pow 0.5 1 * pow (1 - 0.5) (13 - 1))%float /\
  choose 13 1 = 13 /\
  Binomial.getProbability (Binomial.Build 13 0.5%float) 1
  <> Ok (of_int (choose 13 1) * pow 0.5 1 * pow (1 - 0.5) (13 - 1))%float.
Proof.
  repeat split; try (vm_compute; reflexivity); vm_compute; discriminate.
Qed.

(** ** Geometric *)

(** C2 at its failing input: [Geometric(0.75)] is constructed without
    error, and [getProbability(0)] evaluates [(1 - 0.75)^(0 - 1) * 0.75],
    which is 3: the guard [replicasMade < 0] lets the count 0 through to
    the formula, whose support starts at 1. *)
Theorem Geometric_getProbability_at_zero :
  Geometric.new 0.75%float = Ok (Geometric.Build 0.75%float) /\
  Geometric.getProbability (Geometric.Build 0.75%float) 0 = 3%float /\
  (3 <=? 1)%float = false.
Proof. repeat split; vm_compute; reflexivity. Qed.

Lemma Geometric_check_rejects (p : double) :
  (p <? 0)%float = true \/ (1 <? p)%float = true ->
  Geometric.checkProbabilityOfSuccess (Geometric.Build p)
  = (Throw Geometric.probability_error, Geometric.Build p).
Proof.
  unfold Geometric.checkProbabilityOfSuccess. cbn.
  intros [-> | ->]; [reflexivity|].
  destruct (p <? 0)%float; reflexivity.
Qed.

Lemma Geometric_check_accepts (p : double) :
  (p <? 0)%float = false -> (1 <? p)%float = false ->
  Geometric.checkProbabilityOfSuccess (Geometric.Build p)
  = (Ok tt, Geometric.Build p).
Proof.
  unfold Geometric.checkProbabilityOfSuccess. cbn.
  intros -> ->. reflexivity.
Qed.

(** C4, as amended: the domain that Geometric enforces is closed at 0. The
    constructor and [setProbabilityOfSuccess] fail exactly when
    [p < 0] or [p > 1]; every other value, 0 included, is accepted. *)
Theorem Geometric_domain (p : double) (self : Geometric.t) :
  ((p <? 0)%float = true \/ (1 <? p)%float = true ->
   Geometric.new p = Throw Geometric.probability_error /\
   fst (Geometric.setProbabilityOfSuccess p self)
   = Throw Geometric.probability_error) /\
  ((p <? 0)%float = false -> (1 <? p)%float = false ->
   Geometric.new p = Ok (Geometric.Build p) /\
   Geometric.setProbabilityOfSuccess p self = (Ok tt, Geometric.Build p)) /\
  Geometric.new 0%float = Ok (Geometric.Build 0%float).
Proof.
  unfold Geometric.new, construct, Geometric.setProbabilityOfSuccess.
  repeat split.
  - now rewrite Geometric_check_rejects.
  - now rewrite Geometric_check_rejects.
  - now rewrite Geometric_check_accepts.
  - now rewrite Geometric_check_accepts.
Qed.

Lemma Geometric_domain_witness :
  Geometric.new (-0.5)%float = Throw Geometric.probability_error /\
  Geometric.new 1.5%float = Throw Geometric.probability_error /\
  Geometric.new 1%float = Ok (Geometric.Build 1%float) /\
  Geometric.setProbabilityOfSuccess 0%float (Geometric.Build 0.5%float)
  = (Ok tt, Geometric.Build 0%float).
Proof.
  pose proof (Geometric_domain (-0.5)%float (Geometric.Build 0.5%float))
    as (Hlow & _).
  pose proof (Geometric_domain 1.5%float (Geometric.Build 0.5%float))
    as (Hhigh & _).
  pose proof (Geometric_domain 1%float (Geometric.Build 0.5%float))
    as (_ & Hone & _).
  pose proof (Geometric_domain 0%float (Geometric.Build 0.5%float))
    as (_ & Hzero & _).
  split; [apply Hlow; left; reflexivity|].
  split; [apply Hhigh; right; reflexivity|].
  split; [apply Hone; reflexivity | apply Hzero; reflexivity].
Defined.

(** C4, as stated, fails: a success probability of 0 is accepted by the
    constructor and by the setter. *)
Lemma Geometric_accepts_zero :
  Geometric.new 0%float = Ok (Geometric.Build 0%float) /\
  Geometric.setProbabilityOfSuccess 0%float (Geometric.Build 0.5%float)
  = (Ok tt, Geometric.Build 0%float) /\
  ~ raises (Geometric.new 0%float) /\
  ~ raises (fst (Geometric.setProbabilityOfSuccess 0%float
                   (Geometric.Build 0.5%float))).
Proof.
  repeat split; try (vm_compute; reflexivity);
    intros [w Hw]; vm_compute in Hw; discriminate.
Qed.

(** ** Setters *)

Lemma Geometric_valid_inv (self : Geometric.t) :
  Geometric.valid self ->
  (Geometric.probabilityOfSuccess self <? 0)%float = false /\
  (1 <? Geometric.probabilityOfSuccess self)%float = false.
Proof.
  destruct self as [p]. unfold Geometric.valid, Geometric.new, construct,
    Geometric.checkProbabilityOfSuccess. cbn.
  destruct (p <? 0)%float; cbn; [discriminate|].
  destruct (1 <? p)%float; cbn; [discriminate|]. auto.
Qed.

Lemma DiscreteUniform_valid_inv (self : DiscreteUniform.t) :
  DiscreteUniform.valid self ->
  Int.min_signed <= DiscreteUniform.firstValue self /\
  DiscreteUniform.firstValue self <= DiscreteUniform.lastValue self /\
  DiscreteUniform.lastValue self <= Int.max_signed.
Proof.
  destruct self as [a b]. unfold DiscreteUniform.valid, DiscreteUniform.new,
    construct, DiscreteUniform.checkInterval, Int.in_range. cbn.
  intros (Ha & Hb & Hnew). revert Hnew.
  destruct (Z.gtb_spec a b); cbn; [discriminate|]. lia.
Qed.

(** C1, as amended: a setter called on a valid object with a parameter
    outside the domain raises, and the object then holds the rejected
    parameter (it is stored before it is checked and nothing restores the
    old one); the parameters that the setter does not assign are unchanged,
    and later queries read the rejected value. *)
Theorem setters_store_before_validation
  (b : Binomial.t) (g : Geometric.t) (d : DiscreteUniform.t)
  (numberOfTrials : int) (probabilityOfSuccess : double)
  (firstValue lastValue : int) :
  Binomial.valid b -> Geometric.valid g -> DiscreteUniform.valid d ->
  numberOfTrials < 0 ->
  (probabilityOfSuccess <? 0)%float || (1 <? probabilityOfSuccess)%float
  = true ->
  firstValue > lastValue ->
  Binomial.setNumberOfTrials numberOfTrials b
  = (Throw Binomial.trials_error,
     Binomial.Build numberOfTrials (Binomial.probabilityOfSuccess b)) /\
  Binomial.setProbabilityOfSuccess probabilityOfSuccess b
  = (Throw Binomial.probability_error,
     Binomial.Build (Binomial.numberOfTrials b) probabilityOfSuccess) /\
  Geometric.setProbabilityOfSuccess probabilityOfSuccess g
  = (Throw Geometric.probability_error,
     Geometric.Build probabilityOfSuccess) /\
  DiscreteUniform.setInterval firstValue lastValue d
  = (Throw DiscreteUniform.interval_error,
     DiscreteUniform.Build firstValue lastValue) /\
  Binomial.mean (snd (Binomial.setNumberOfTrials numberOfTrials b))
  = (of_int numberOfTrials * Binomial.probabilityOfSuccess b)%float /\
  Geometric.mean (snd (Geometric.setProbabilityOfSuccess
                         probabilityOfSuccess g))
  = (1 / probabilityOfSuccess)%float.
Proof.
  intros Hb Hg Hd Hn Hp Hi.
  destruct (Binomial_valid_inv b Hb) as (Hbn & _ & _).
  assert (E1 : Binomial.setNumberOfTrials numberOfTrials b
               = (Throw Binomial.trials_error,
                  Binomial.Build numberOfTrials
                                 (Binomial.probabilityOfSuccess b))).
  { unfold Binomial.setNumberOfTrials, Binomial.checkDistribution,
      method_bind, Binomial.checkNumberOfTrials. cbn.
    destruct (Z.ltb_spec numberOfTrials 0); [reflexivity | lia]. }
  assert (E3 : Geometric.setProbabilityOfSuccess probabilityOfSuccess g
               = (Throw Geometric.probability_error,
                  Geometric.Build probabilityOfSuccess)).
  { unfold Geometric.setProbabilityOfSuccess,
      Geometric.checkProbabilityOfSuccess. cbn. now rewrite Hp. }
  repeat split.
  - exact E1.
  - unfold Binomial.setProbabilityOfSuccess, Binomial.checkDistribution,
      method_bind, Binomial.checkNumberOfTrials,
      Binomial.checkProbabilityOfSuccess. cbn.
    destruct (Z.ltb_spec (Binomial.numberOfTrials b) 0); [lia|].
    cbn. now rewrite Hp.
  - exact E3.
  - unfold DiscreteUniform.setInterval, DiscreteUniform.checkInterval. cbn.
    destruct (Z.gtb_spec firstValue lastValue); [reflexivity | lia].
  - now rewrite E1.
  - now rewrite E3.
Qed.

Lemma setters_store_before_validation_witness :
  Binomial.setNumberOfTrials (-1) (Binomial.Build 10 0.5%float)
  = (Throw Binomial.trials_error, Binomial.Build (-1) 0.5%float) /\
  Binomial.setProbabilityOfSuccess 1.5%float (Binomial.Build 10 0.5%float)
  = (Throw Binomial.probability_error, Binomial.Build 10 1.5%float) /\
  Geometric.setProbabilityOfSuccess 1.5%float (Geometric.Build 0.5%float)
  = (Throw Geometric.probability_error, Geometric.Build 1.5%float) /\
  DiscreteUniform.setInterval 6 1 (DiscreteUniform.Build 1 6)
  = (Throw DiscreteUniform.interval_error, DiscreteUniform.Build 6 1).
Proof.
  assert (Hb : Binomial.valid (Binomial.Build 10 0.5%float)).
  { split; [vm_compute; split; discriminate | vm_compute; reflexivity]. }
  assert (Hg : Geometric.valid (Geometric.Build 0.5%float)).
  { vm_compute; reflexivity. }
  assert (Hd : DiscreteUniform.valid (DiscreteUniform.Build 1 6)).
  { repeat split; try (vm_compute; discriminate). }
  destruct (setters_store_before_validation
              (Binomial.Build 10 0.5%float) (Geometric.Build 0.5%float)
              (DiscreteUniform.Build 1 6) (-1) 1.5%float 6 1 Hb Hg Hd)
    as (H1 & H2 & H3 & H4 & _).
  - lia.
  - vm_compute; reflexivity.
  - lia.
  - auto.
Defined.

(** C1, as stated, fails: [Binomial(10, 0.5).setNumberOfTrials(-1)] raises
    and leaves -1 as the number of trials, an object that no constructor
    call produces and whose [mean()] is then -0.5; likewise
    [DiscreteUniform(1, 6).setInterval(6, 1)] raises and leaves the inverted
    interval, and [Geometric(0.5).setProbabilityOfSuccess(1.5)] leaves
    1.5. *)
Lemma setters_do_not_roll_back :
  let b := Binomial.Build 10 0.5%float in
  let b' := snd (Binomial.setNumberOfTrials (-1) b) in
  let d := DiscreteUniform.Build 1 6 in
  let d' := snd (DiscreteUniform.setInterval 6 1 d) in
  let g := Geometric.Build 0.5%float in
  let g' := snd (Geometric.setProbabilityOfSuccess 1.5%float g) in
  Binomial.valid b /\
  raises (fst (Binomial.setNumberOfTrials (-1) b)) /\
  b' <> b /\ Binomial.numberOfTrials b' = -1 /\ ~ Binomial.valid b' /\
  Binomial.mean b' = (-0.5)%float /\
  DiscreteUniform.valid d /\
  raises (fst (DiscreteUniform.setInterval 6 1 d)) /\
  d' <> d /\ ~ DiscreteUniform.valid d' /\
  Geometric.valid g /\
  raises (fst (Geometric.setProbabilityOfSuccess 1.5%float g)) /\
  g' <> g /\ ~ Geometric.valid g'.
Proof.
  cbv zeta. repeat split; try (vm_compute; reflexivity);
    try (vm_compute; discriminate); try (now eexists).
  - intros [_ H]. vm_compute in H. discriminate.
  - intros (_ & _ & H). vm_compute in H. discriminate.
Qed.

(** ** DiscreteUniform *)

(** Wrap-around only depends on the residue modulo [2^32], so nested
    wrap-arounds collapse into one. *)
Lemma wrap_residue (z : Z) : Int.wrap z mod 2 ^ 32 = z mod 2 ^ 32.
Proof.
  unfold Int.wrap. rewrite Zminus_mod_idemp_l. f_equal. lia.
Qed.

Lemma wrap_congruent (a b : Z) :
  a mod 2 ^ 32 = b mod 2 ^ 32 -> Int.wrap a = Int.wrap b.
Proof.
  intros Hab. unfold Int.wrap.
  rewrite <- (Zplus_mod_idemp_l a), <- (Zplus_mod_idemp_l b), Hab.
  reflexivity.
Qed.

Lemma variance_product_wraps_once (low high : int) :
  Int.mul (Int.sub high low) (Int.add (Int.sub high low) 2)
  = Int.wrap ((high - low) * (high - low + 2)).
Proof.
  unfold Int.mul, Int.add, Int.sub. apply wrap_congruent.
  rewrite Z.mul_mod by lia. rewrite !wrap_residue.
  rewrite <- (Zplus_mod_idemp_l (Int.wrap (high - low))), wrap_residue.
  rewrite Zplus_mod_idemp_l. now rewrite <- Z.mul_mod by lia.
Qed.

(** Dividing the wrapped value gives the quotient of the exact one only
    when nothing has wrapped. *)
Lemma wrapped_quotient_exact_iff (z d : Z) :
  0 < d < 2 ^ 31 ->
  (Int.wrap z ÷ d = z ÷ d <-> Int.in_range z).
Proof.
  intros Hd. split; [|intros Hz; now rewrite wrap_in_range].
  intros Hq.
  pose proof (wrap_range z) as Hw.
  pose proof (wrap_residue z) as Hres.
  destruct (Z.eq_dec (Int.wrap z) z) as [<-|Hne]; [exact Hw|]. exfalso.
  assert (Hfar : 2 ^ 32 <= Z.abs (z - Int.wrap z)).
  { generalize dependent (Int.wrap z). intros w Hq Hw Hres Hne.
    pose proof (Z.div_mod z (2 ^ 32) ltac:(lia)).
    pose proof (Z.div_mod w (2 ^ 32) ltac:(lia)).
    rewrite Hres in *.
    assert (z / 2 ^ 32 <> w / 2 ^ 32) by (intros E; rewrite E in *; lia).
    lia. }
  generalize dependent (Int.wrap z). intros w Hq Hw Hres Hne Hfar.
  pose proof (Z.quot_rem' z d). pose proof (Z.quot_rem' w d).
  pose proof (Z.rem_bound_abs z d ltac:(lia)).
  pose proof (Z.rem_bound_abs w d ltac:(lia)).
  rewrite Hq in *. lia.
Qed.

(** C8, as amended: the mean of a valid DiscreteUniform is the quotient by
    2, rounded towards zero, of [firstValue + lastValue] wrapped to 32
    bits, converted to [double] only afterwards; the variance is the
    quotient by 12, rounded the same way, of
    [(last - first) * (last - first + 2)] wrapped to 32 bits. These are the
    quotients of the exact sum and of the exact product exactly when the sum,
    respectively the product, fits an [int]. [DiscreteUniform(1,2).mean()]
    is 1, not 1.5. *)
Theorem DiscreteUniform_mean_variance_truncate (self : DiscreteUniform.t) :
  DiscreteUniform.valid self ->
  let low := DiscreteUniform.firstValue self in
  let high := DiscreteUniform.lastValue self in
  let sum := low + high in
  let product := (high - low) * (high - low + 2) in
  DiscreteUniform.mean self = of_int (Int.wrap sum ÷ 2) /\
  DiscreteUniform.variance self = of_int (Int.wrap product ÷ 12) /\
  (Int.in_range sum -> DiscreteUniform.mean self = of_int (sum ÷ 2)) /\
  (Int.in_range product ->
   DiscreteUniform.variance self = of_int (product ÷ 12)) /\
  (Int.wrap sum ÷ 2 = sum ÷ 2 <-> Int.in_range sum) /\
  (Int.wrap product ÷ 12 = product ÷ 12 <-> Int.in_range product) /\
  DiscreteUniform.mean (DiscreteUniform.Build 1 2) = 1%float /\
  DiscreteUniform.mean (DiscreteUniform.Build 1 2) <> 1.5%float /\
  DiscreteUniform.mean (DiscreteUniform.Build (-2) (-1)) = (-1)%float /\
  DiscreteUniform.variance (DiscreteUniform.Build 1 6) = 2%float.
Proof.
  intros Hvalid low high sum product.
  assert (Hmean : DiscreteUniform.mean self = of_int (Int.wrap sum ÷ 2))
    by reflexivity.
  assert (Hvariance : DiscreteUniform.variance self
                      = of_int (Int.wrap product ÷ 12)).
  { unfold DiscreteUniform.variance. fold low high.
    now rewrite variance_product_wraps_once. }
  split; [exact Hmean|]. split; [exact Hvariance|].
  split; [intros Hfit; now rewrite Hmean, wrap_in_range|].
  split; [intros Hfit; now rewrite Hvariance, wrap_in_range|].
  split; [apply wrapped_quotient_exact_iff; lia|].
  split; [apply wrapped_quotient_exact_iff; lia|].
  repeat split; vm_compute; (reflexivity || discriminate).
Qed.

Lemma DiscreteUniform_mean_variance_truncate_witness :
  DiscreteUniform.mean (DiscreteUniform.Build 1 6) = of_int ((1 + 6) ÷ 2) /\
  DiscreteUniform.variance (DiscreteUniform.Build 1 6)
  = of_int (((6 - 1) * (6 - 1 + 2)) ÷ 12).
Proof.
  assert (Hd : DiscreteUniform.valid (DiscreteUniform.Build 1 6)).
  { repeat split; try (vm_compute; discriminate). }
  destruct (DiscreteUniform_mean_variance_truncate _ Hd)
    as (_ & _ & Hmean & Hvar & _).
  split; [apply Hmean | apply Hvar]; vm_compute; split; discriminate.
Defined.

(** C8, as stated, fails on valid objects whose sum or product leaves the
    range of [int]: for [DiscreteUniform(0, 100000)] the product
    [100000 * 100002] wraps to 1410265408 and [variance()] is 117522117,
    where the exact quotient is 833350000; for
    [DiscreteUniform(INT_MAX, INT_MAX)] the sum wraps to -2 and [mean()] is
    -1, where the exact quotient is [INT_MAX]. *)
Lemma DiscreteUniform_mean_variance_overflow :
  let wide := DiscreteUniform.Build 0 100000 in
  let top := DiscreteUniform.Build Int.max_signed Int.max_signed in
  DiscreteUniform.valid wide /\
  DiscreteUniform.variance wide = 117522117%float /\
  ((100000 - 0) * (100000 - 0 + 2)) ÷ 12 = 833350000 /\
  DiscreteUniform.variance wide
  <> of_int (((100000 - 0) * (100000 - 0 + 2)) ÷ 12) /\
  DiscreteUniform.valid top /\
  DiscreteUniform.mean top = (-1)%float /\
  (Int.max_signed + Int.max_signed) ÷ 2 = 2147483647 /\
  DiscreteUniform.mean top
  <> of_int ((Int.max_signed + Int.max_signed) ÷ 2).
Proof.
  cbv zeta. repeat split; try (vm_compute; reflexivity);
    vm_compute; discriminate.
Qed.

(** ** The statistics engine *)

Section EngineProperties.
Context {T : Type} `{Arithmetic T} `{Countable T}.
Variable iteration : gmap T int -> list (T * int).

Lemma size_fits (self : Statistics.t T) :
  Z.of_nat (length (Statistics.values self)) <= Int.max_signed ->
  Statistics.size self = Z.of_nat (length (Statistics.values self)).
Proof.
  intros Hlen. apply wrap_in_range. int_range.
Qed.

Lemma calculateSum_squares (m : double) (self : Statistics.t T) :
  Statistics.calculateSum (fun value => pow (to_double value - m) 2) self
  = Statistics.sum_of_squared_deviations m (Statistics.values self).
Proof. reflexivity. Qed.

Lemma variance_nonempty (self : Statistics.t T) :
  Statistics.values self <> [] ->
  Statistics.variance self =
  let squares :=
    Statistics.sum_of_squared_deviations (Statistics.mean self)
                                         (Statistics.values self) in
  if Statistics.populationData self
  then (squares / of_int (Statistics.size self))%float
  else (squares / of_int (Int.sub (Statistics.size self) 1))%float.
Proof.
  intros Hne. unfold Statistics.variance.
  destruct (Statistics.values self) as [|v l] eqn:E; [congruence|].
  rewrite calculateSum_squares, E. reflexivity.
Qed.

(** C5: on an empty sample the sum (with any transform), the mean, the
    variance, the standard deviation and the coefficient of variation are
    0, whatever the flag; the median, the mode and the amplitude raise
    "Values are empty"; and the failed [median] hands the engine back as
    it was, the check coming before the sort. *)
Theorem empty_sample (populationData : bool) (function : T -> double) :
  let self := Statistics.Build (@nil T) populationData in
  Statistics.calculateSum function self = 0%float /\
  Statistics.calculateSum Statistics.identity self = 0%float /\
  Statistics.mean self = 0%float /\
  Statistics.variance self = 0%float /\
  Statistics.standardDeviation self = 0%float /\
  Statistics.coefficientOfVariation self = 0%float /\
  Statistics.median self = (Throw Statistics.empty_error, self) /\
  Statistics.mode iteration self = Throw Statistics.empty_error /\
  Statistics.amplitude self = Throw Statistics.empty_error.
Proof. repeat split. Qed.

(** C3, as amended: for every sample the sum, the mean, the median (its
    value and the sorted sample it leaves), the mode and the amplitude do
    not depend on the flag; the variance of a non-empty sample divides the
    sum of squared deviations by the size for a population and by the size
    minus one for a sample; the standard deviation is the square root of
    that variance and the coefficient of variation its quotient by the
    mean, so both follow the flag through the variance. *)
Theorem flag_only_read_by_variance (l : list T) (function : T -> double) :
  let population := Statistics.Build l true in
  let sample := Statistics.Build l false in
  let squares :=
    Statistics.sum_of_squared_deviations (Statistics.mean sample) l in
  Statistics.calculateSum function population
  = Statistics.calculateSum function sample /\
  Statistics.mean population = Statistics.mean sample /\
  fst (Statistics.median population) = fst (Statistics.median sample) /\
  Statistics.values (snd (Statistics.median population))
  = Statistics.values (snd (Statistics.median sample)) /\
  Statistics.mode iteration population = Statistics.mode iteration sample /\
  Statistics.amplitude population = Statistics.amplitude sample /\
  (l <> [] ->
   Statistics.variance population
   = (squares / of_int (Statistics.size population))%float /\
   Statistics.variance sample
   = (squares / of_int (Int.sub (Statistics.size sample) 1))%float /\
   Statistics.standardDeviation population
   = PrimFloat.sqrt (squares / of_int (Statistics.size population)) /\
   Statistics.standardDeviation sample
   = PrimFloat.sqrt (squares / of_int (Int.sub (Statistics.size sample) 1)))
  /\
  Statistics.coefficientOfVariation population
  = (if (Statistics.mean population =? 0)%float then 0%float
     else PrimFloat.sqrt (Statistics.variance population)
          / Statistics.mean population)%float /\
  Statistics.coefficientOfVariation sample
  = (if (Statistics.mean sample =? 0)%float then 0%float
     else PrimFloat.sqrt (Statistics.variance sample)
          / Statistics.mean sample)%float.
Proof.
  intros population sample squares.
  split; [reflexivity|]. split; [reflexivity|].
  split; [unfold Statistics.median; cbn; now destruct l|].
  split; [unfold Statistics.median; cbn; now destruct l|].
  split; [reflexivity|]. split; [reflexivity|].
  split; [|split; reflexivity].
  intros Hne.
  assert (Vp : Statistics.variance population
               = (squares / of_int (Statistics.size population))%float)
    by (now rewrite variance_nonempty).
  assert (Vs : Statistics.variance sample
               = (squares / of_int (Int.sub (Statistics.size sample) 1))%float)
    by (now rewrite variance_nonempty).
  unfold Statistics.standardDeviation. rewrite Vp, Vs. auto.
Qed.

(** The variance of a non-empty sample, unfolded: the mean is the sum
    divided by the size, the variance the sum of the squared deviations
    from it divided by the size or by the size minus one, and the size is
    the number of elements whenever that number fits an [int]. *)
Lemma variance_is_mean_squared_deviation (self : Statistics.t T) :
  Statistics.values self <> [] ->
  let count := Statistics.size self in
  let squares :=
    Statistics.sum_of_squared_deviations (Statistics.mean self)
                                         (Statistics.values self) in
  Statistics.mean self
  = (Statistics.calculateSum Statistics.identity self / of_int count)%float /\
  (Statistics.populationData self = true ->
   Statistics.variance self = (squares / of_int count)%float) /\
  (Statistics.populationData self = false ->
   Statistics.variance self = (squares / of_int (Int.sub count 1))%float) /\
  (Z.of_nat (length (Statistics.values self)) <= Int.max_signed ->
   count = Z.of_nat (length (Statistics.values self)) /\
   Int.sub count 1 = Z.of_nat (length (Statistics.values self)) - 1).
Proof.
  intros Hne count squares. repeat split.
  - unfold Statistics.mean.
    destruct (Statistics.values self); [congruence | reflexivity].
  - intros Hflag. rewrite variance_nonempty by assumption. now rewrite Hflag.
  - intros Hflag. rewrite variance_nonempty by assumption. now rewrite Hflag.
  - now apply size_fits.
  - unfold count. rewrite size_fits by assumption. apply sub_in_range.
    int_range.
Qed.

End EngineProperties.

(** ** The mode *)

Lemma max_element_from_spec {A} (key : A -> Z) (l : list A) :
  forall largest : A,
    let r := max_element_from (fun a b => key a <? key b) largest l in
    (r = largest \/ r ∈ l) /\ key largest <= key r /\
    forall x, x ∈ l -> key x <= key r.
Proof.
  induction l as [|y l IH]; intros largest; cbn.
  - split; [now left|]. split; [lia|]. intros x Hx. inversion Hx.
  - destruct (IH (if key largest <? key y then y else largest))
      as (Hin & Hle & Hall).
    destruct (Z.ltb_spec (key largest) (key y)).
    + split; [right; destruct Hin as [->|Hin]; [left | now right]|].
      split; [lia|]. intros x Hx. apply elem_of_cons in Hx as [->|Hx]; auto.
    + split; [destruct Hin as [->|Hin]; [now left | right; now right]|].
      split; [lia|]. intros x Hx.
      apply elem_of_cons in Hx as [->|Hx]; [lia | auto].
Qed.

Lemma max_element_spec {A} (key : A -> Z) (l : list A) :
  l <> [] ->
  exists r, max_element (fun a b => key a <? key b) l = Some r /\
            r ∈ l /\ forall x, x ∈ l -> key x <= key r.
Proof.
  destruct l as [|y l]; [congruence|]. intros _. cbn.
  destruct (max_element_from_spec key l y) as (Hin & Hle & Hall).
  eexists. split; [reflexivity|]. split.
  - destruct Hin as [->|Hin]; [left | now right].
  - intros x Hx. apply elem_of_cons in Hx as [->|Hx]; auto.
Qed.

Section ModeProperties.
Context {T : Type} `{Countable T}.

Lemma occurrences_snoc (x y : T) (l : list T) :
  Statistics.occurrences x (l ++ [y])
  = Statistics.occurrences x l + (if decide (x = y) then 1 else 0).
Proof.
  unfold Statistics.occurrences. rewrite filter_app, length_app.
  destruct (decide (x = y)) as [->|Hne].
  - rewrite filter_cons_True by reflexivity. cbn. lia.
  - rewrite filter_cons_False by congruence. cbn. lia.
Qed.

Lemma occurrences_bounds (x : T) (l : list T) :
  0 <= Statistics.occurrences x l <= Z.of_nat (length l).
Proof.
  unfold Statistics.occurrences.
  pose proof (length_filter (x =.) l). lia.
Qed.

Lemma occurrences_positive (x : T) (l : list T) :
  0 < Statistics.occurrences x l <-> x ∈ l.
Proof.
  unfold Statistics.occurrences. split.
  - destruct (filter (x =.) l) as [|y k] eqn:E; cbn; [lia|]. intros _.
    assert (Hy : y ∈ filter (x =.) l) by (rewrite E; left).
    apply list_elem_of_filter in Hy as [-> Hy]. exact Hy.
  - intros Hx.
    assert (Hx' : x ∈ filter (x =.) l) by (now apply list_elem_of_filter).
    destruct (filter (x =.) l); [inversion Hx' | cbn; lia].
Qed.

Lemma frequencies_snoc (l : list T) (x : T) :
  Statistics.frequencies (l ++ [x])
  = Statistics.count_up (Statistics.frequencies l) x.
Proof. unfold Statistics.frequencies. now rewrite fold_left_app. Qed.

(** While the counters do not overflow, the frequency table holds, for
    each value of the sample, its number of occurrences, and nothing
    else. *)
Lemma frequencies_lookup (l : list T) :
  Z.of_nat (length l) <= Int.max_signed ->
  forall v : T,
    Statistics.frequencies l !! v
    = if decide (v ∈ l) then Some (Statistics.occurrences v l) else None.
Proof.
  induction l as [|x l IH] using rev_ind; intros Hlen v.
  - unfold Statistics.frequencies. cbn. rewrite lookup_empty.
    destruct (decide (v ∈ [])) as [Hv|]; [inversion Hv | reflexivity].
  - rewrite length_app in Hlen. cbn in Hlen.
    rewrite frequencies_snoc. unfold Statistics.count_up.
    rewrite occurrences_snoc.
    destruct (decide (v = x)) as [->|Hne].
    + rewrite lookup_insert_eq.
      destruct (decide (x ∈ l ++ [x])) as [_|Hn];
        [|exfalso; apply Hn; apply elem_of_app; right; left].
      f_equal. rewrite IH by lia.
      pose proof (occurrences_bounds x l) as Hb.
      destruct (decide (x ∈ l)) as [Hx|Hx]; cbn.
      * apply add_in_range. int_range.
      * assert (Statistics.occurrences x l = 0) as ->.
        { pose proof (occurrences_positive x l) as Hp. destruct Hp as [Hp _].
          destruct (Z.eq_dec (Statistics.occurrences x l) 0); [assumption|].
          exfalso. apply Hx, Hp. lia. }
        reflexivity.
    + rewrite lookup_insert_ne by congruence. rewrite IH by lia.
      rewrite Z.add_0_r.
      destruct (decide (v ∈ l)) as [Hv|Hv].
      * destruct (decide (v ∈ l ++ [x])) as [_|Hn]; [reflexivity|].
        exfalso. apply Hn, elem_of_app. now left.
      * destruct (decide (v ∈ l ++ [x])) as [Hv'|_]; [|reflexivity].
        exfalso. apply elem_of_app in Hv' as [Hv'|Hv']; [auto|].
        apply list_elem_of_singleton in Hv'. congruence.
Qed.

(** C10: whatever order the frequency table is traversed in, the mode of a
    non-empty sample (of at most [INT_MAX] elements, so that no counter
    overflows) is a value of the sample that occurs at least as often as
    every value; among tied values it is one of them. *)
Theorem mode_is_most_frequent
  (iteration : gmap T int -> list (T * int)) (self : Statistics.t T) :
  (forall m, iteration m ≡ₚ map_to_list m) ->
  Statistics.values self <> [] ->
  Z.of_nat (length (Statistics.values self)) <= Int.max_signed ->
  exists m : T,
    Statistics.mode iteration self = Ok m /\
    m ∈ Statistics.values self /\
    forall v : T,
      Statistics.occurrences v (Statistics.values self)
      <= Statistics.occurrences m (Statistics.values self).
Proof.
  intros Horder Hne Hlen. unfold Statistics.mode, Statistics.ensureNotEmpty.
  destruct (Statistics.values self) as [|x0 l0] eqn:E; [congruence|].
  rewrite <- E in *. cbn.
  set (frequency := Statistics.frequencies (Statistics.values self)).
  pose proof (frequencies_lookup (Statistics.values self) Hlen) as Hlookup.
  fold frequency in Hlookup.
  assert (Hentry : forall v c,
             (v, c) ∈ iteration frequency <-> frequency !! v = Some c).
  { intros v c. rewrite (Horder frequency). apply elem_of_map_to_list. }
  assert (Hx0 : x0 ∈ Statistics.values self) by (rewrite E; left).
  assert (Hnonempty : iteration frequency <> []).
  { intros Hnil.
    assert (Hin : (x0, Statistics.occurrences x0 (Statistics.values self))
                  ∈ iteration frequency).
    { apply Hentry. rewrite Hlookup. now destruct (decide _). }
    rewrite Hnil in Hin. inversion Hin. }
  destruct (max_element_spec snd (iteration frequency) Hnonempty)
    as ([m c] & -> & Hin & Hmax).
  apply Hentry in Hin. rewrite Hlookup in Hin.
  destruct (decide (m ∈ Statistics.values self)) as [Hm|]; [|discriminate].
  injection Hin as <-.
  exists m. split; [reflexivity|]. split; [assumption|].
  intros v. destruct (decide (v ∈ Statistics.values self)) as [Hv|Hv].
  - apply (Hmax (v, Statistics.occurrences v (Statistics.values self))).
    apply Hentry. rewrite Hlookup. now destruct (decide _).
  - pose proof (occurrences_positive v (Statistics.values self)) as Hp.
    pose proof (occurrences_bounds v (Statistics.values self)).
    pose proof (occurrences_bounds m (Statistics.values self)).
    destruct (Z.eq_dec (Statistics.occurrences v (Statistics.values self)) 0);
      [lia|]. exfalso. apply Hv, Hp. lia.
Qed.

End ModeProperties.

Lemma mode_is_most_frequent_witness :
  let self := Statistics.Build [1; 1; 2; 3] true in
  exists m : int,
    Statistics.mode forward_iteration self = Ok m /\
    m ∈ Statistics.values self /\
    forall v : int,
      Statistics.occurrences v (Statistics.values self)
      <= Statistics.occurrences m (Statistics.values self).
Proof.
  intros self. apply mode_is_most_frequent.
  - intros m. reflexivity.
  - discriminate.
  - vm_compute. discriminate.
Defined.

(** On a tie the answer follows the traversal: of the equally frequent 1
    and 2, one traversal of the table yields 2 and the opposite one 1. *)
Example mode_of_a_tie :
  let self := Statistics.Build ([1; 2; 2; 1; 3] : list int) true in
  Statistics.mode forward_iteration self = Ok 2 /\
  Statistics.mode backward_iteration self = Ok 1.
Proof. split; vm_compute; reflexivity. Qed.

(** ** Variance *)

(** C6: for every non-empty sample, [mean()] is the sum of the elements,
    accumulated from 0 in stored order, divided by the count, and
    [variance()] is the sum of the squared deviations from that mean divided
    by the count when [populationData] is true and by the count minus one
    when it is false (the count being [size()], the number of elements
    whenever it fits an [int]); for the population sample {1,2,3,4,5} the
    mean is 3, the variance 2 and the standard deviation [sqrt(2)], and for
    {1,1,1,5}, whose mean 2 is not one of its elements, the variance is 3
    as a population and 4 as a sample. *)
Theorem variance_formula {T : Type} `{Arithmetic T} (self : Statistics.t T) :
  Statistics.values self <> [] ->
  let count := Statistics.size self in
  let total :=
    fold_left (fun acc v => (acc + to_double v)%float)
              (Statistics.values self) 0%float in
  let average := (total / of_int count)%float in
  let squares :=
    Statistics.sum_of_squared_deviations average (Statistics.values self) in
  Statistics.calculateSum Statistics.identity self = total /\
  Statistics.mean self = average /\
  (Statistics.populationData self = true ->
   Statistics.variance self = (squares / of_int count)%float) /\
  (Statistics.populationData self = false ->
   Statistics.variance self = (squares / of_int (Int.sub count 1))%float) /\
  (Z.of_nat (length (Statistics.values self)) <= Int.max_signed ->
   count = Z.of_nat (length (Statistics.values self)) /\
   Int.sub count 1 = Z.of_nat (length (Statistics.values self)) - 1) /\
  let population := Statistics.Build ([1; 2; 3; 4; 5] : list int) true in
  let skewed := fun flag => Statistics.Build ([1; 1; 1; 5] : list int) flag in
  Statistics.mean population = 3%float /\
  Statistics.variance population = 2%float /\
  Statistics.standardDeviation population = PrimFloat.sqrt 2 /\
  Statistics.mean (skewed true) = 2%float /\
  Statistics.variance (skewed true) = 3%float /\
  Statistics.variance (skewed false) = 4%float /\
  Statistics.standardDeviation (skewed false) = 2%float.
Proof.
  intros Hne count total average squares.
  destruct (variance_is_mean_squared_deviation self Hne)
    as (Hmean & Hpop & Hsample & Hcount).
  assert (Htotal : Statistics.calculateSum Statistics.identity self = total)
    by reflexivity.
  assert (Haverage : Statistics.mean self = average)
    by (rewrite Hmean, Htotal; reflexivity).
  split; [exact Htotal|]. split; [exact Haverage|].
  split; [intros Hflag; rewrite (Hpop Hflag), Haverage; reflexivity|].
  split; [intros Hflag; rewrite (Hsample Hflag), Haverage; reflexivity|].
  split; [exact Hcount|].
  repeat split; vm_compute; reflexivity.
Qed.

Lemma variance_formula_witness :
  let sample := Statistics.Build ([2; 4; 4; 4; 5; 5; 7; 9] : list int) false in
  let average :=
    (fold_left (fun acc v => acc + of_int v) (Statistics.values sample) 0
     / of_int 8)%float in
  Statistics.mean sample = average /\
  average = 5%float /\
  Statistics.variance sample
  = (Statistics.sum_of_squared_deviations average (Statistics.values sample)
     / of_int (8 - 1))%float /\
  Statistics.variance sample = (32 / 7)%float /\
  Statistics.variance (Statistics.Build ([5] : list int) false) = nan.
Proof.
  intros sample average.
  assert (Hne : Statistics.values sample <> []) by discriminate.
  destruct (variance_formula sample Hne) as (_ & Hmean & _ & Hsample & _).
  split; [exact Hmean|]. split; [vm_compute; reflexivity|].
  split; [rewrite Hsample; reflexivity|].
  split; [rewrite Hsample; vm_compute; reflexivity | vm_compute; reflexivity].
Defined.

(** ** The population flag *)

Lemma flag_only_read_by_variance_witness :
  let population := Statistics.Build ([1; 2; 3] : list int) true in
  let sample := Statistics.Build ([1; 2; 3] : list int) false in
  Statistics.mean population = Statistics.mean sample /\
  fst (Statistics.median population) = fst (Statistics.median sample) /\
  Statistics.mode forward_iteration population
  = Statistics.mode forward_iteration sample /\
  Statistics.amplitude population = Statistics.amplitude sample /\
  Statistics.variance population = (2 / 3)%float /\
  Statistics.variance sample = (2 / 2)%float.
Proof.
  intros population sample.
  destruct (flag_only_read_by_variance forward_iteration [1; 2; 3] of_int)
    as (_ & Hmean & Hmedian & _ & Hmode & Hamplitude & Hvariance & _).
  destruct Hvariance as (Hpopulation & Hsample & _); [discriminate|].
  repeat split; assumption.
Defined.

(** C3, as stated, fails: on {1,2,3} the standard deviation is
    [sqrt(2/3)] for population data and 1 for sample data, and the
    coefficient of variation differs accordingly. *)
Lemma standardDeviation_follows_flag :
  let population := Statistics.Build ([1; 2; 3] : list int) true in
  let sample := Statistics.Build ([1; 2; 3] : list int) false in
  Statistics.standardDeviation population
  <> Statistics.standardDeviation sample /\
  Statistics.coefficientOfVariation population
  <> Statistics.coefficientOfVariation sample /\
  Statistics.standardDeviation population = PrimFloat.sqrt (2 / 3) /\
  Statistics.standardDeviation sample = 1%float /\
  Statistics.coefficientOfVariation sample = 0.5%float.
Proof.
  cbv zeta. repeat split; try (vm_compute; reflexivity);
    vm_compute; discriminate.
Qed.

(** * Further properties of the code *)

(** ** [factorial] and [combination] on the whole of [int] *)

(** Fuel beyond [x] units changes nothing. *)
Lemma factorial_rec_enough (fuel : nat) :
  forall x : int,
    x <= Int.max_signed -> (Z.to_nat x <= fuel)%nat ->
    factorial_rec fuel x = factorial x.
Proof.
  unfold factorial.
  induction fuel as [|fuel IH]; intros x Hx Hfuel.
  - replace (Z.to_nat x) with O by lia. reflexivity.
  - destruct (Z.to_nat x) as [|k] eqn:E.
    + simpl. destruct (Z.ltb_spec x 0); [reflexivity|].
      destruct (Z.leb_spec x 1); [reflexivity | lia].
    + simpl. destruct (Z.ltb_spec x 0); [reflexivity|].
      destruct (Z.leb_spec x 1); [reflexivity|].
      rewrite sub_in_range by int_range.
      rewrite (IH (x - 1)) by lia.
      replace k with (Z.to_nat (x - 1)) by lia. reflexivity.
Qed.

(** The recurrence of the source, [x * factorial(x - 1)], on the model. *)
Lemma factorial_step (x : int) :
  2 <= x <= Int.max_signed ->
  factorial x = do r <- factorial (x - 1); Ok (Int.mul x r).
Proof.
  intros Hx. unfold factorial at 1.
  destruct (Z.to_nat x) as [|k] eqn:E; [lia|]. simpl.
  destruct (Z.ltb_spec x 0); [lia|].
  destruct (Z.leb_spec x 1); [lia|].
  rewrite sub_in_range by int_range.
  rewrite factorial_rec_enough by lia. reflexivity.
Qed.

Lemma exact_factorial_positive (n : nat) : 0 < exact_factorial n.
Proof. induction n as [|n IH]; cbn [exact_factorial]; lia. Qed.

Lemma exact_factorial_monotone (n m : nat) :
  (n <= m)%nat -> exact_factorial n <= exact_factorial m.
Proof.
  induction 1 as [|m Hle IH]; [lia|].
  cbn [exact_factorial]. pose proof (exact_factorial_positive m). nia.
Qed.

(** X1: [factorial] is the mathematical factorial exactly on 0..12: from
    13 on the product no longer fits 32 bits and the value returned is a
    different number. *)
Theorem factorial_exact_up_to_12 (x : int) :
  0 <= x <= Int.max_signed ->
  (x <= 12 -> factorial x = Ok (exact_factorial (Z.to_nat x))) /\
  (13 <= x -> factorial x <> Ok (exact_factorial (Z.to_nat x))).
Proof.
  intros Hx. split.
  - intros Hsmall. rewrite <- (Z2Nat.id x) at 1 by lia.
    assert (Hn : (Z.to_nat x <= 12)%nat) by lia.
    revert Hn. generalize (Z.to_nat x) as n. intros n Hn.
    do 13 (destruct n as [|n]; [vm_compute; reflexivity|]). lia.
  - intros Hbig Heq.
    assert (Hlarge : exact_factorial 13 <= exact_factorial (Z.to_nat x))
      by (apply exact_factorial_monotone; lia).
    assert (Hfit : Int.in_range (exact_factorial (Z.to_nat x))).
    { rewrite factorial_step in Heq by lia.
      destruct (factorial (x - 1)) as [r| |]; try discriminate.
      cbn in Heq. injection Heq as <-. apply wrap_range. }
    change (exact_factorial 13) with 6227020800 in Hlarge.
    unfold Int.in_range, Int.max_signed in Hfit. lia.
Qed.

Lemma factorial_exact_up_to_12_witness :
  factorial 12 = Ok 479001600 /\ factorial 13 <> Ok 6227020800.
Proof.
  destruct (factorial_exact_up_to_12 12) as [Hsmall _];
    [vm_compute; split; discriminate|].
  destruct (factorial_exact_up_to_12 13) as [_ Hbig];
    [vm_compute; split; discriminate|].
  split; [apply Hsmall; lia | apply Hbig; lia].
Defined.

(** X2: on an [int] argument [factorial] raises exactly when the argument
    is negative and returns a value otherwise: the recursion always
    reaches its base case. *)
Theorem factorial_raises_iff_negative (x : int) :
  Int.in_range x ->
  (raises (factorial x) <-> x < 0) /\ (returns (factorial x) <-> 0 <= x).
Proof.
  intros Hx.
  destruct (Z_lt_ge_dec x 0) as [Hneg|Hpos].
  - rewrite factorial_negative by assumption. split; split; try lia.
    + intros _. now eexists.
    + intros [a Ha]. discriminate.
  - destruct (factorial_returns x) as [v Hv]; [int_range|]. rewrite Hv.
    split; split; try lia.
    + intros [w Hw]. discriminate.
    + intros _. now eexists.
Qed.

Lemma factorial_raises_iff_negative_witness :
  raises (factorial (-1)) /\ returns (factorial 20).
Proof.
  destruct (factorial_raises_iff_negative (-1)) as [[_ Hraise] _];
    [vm_compute; split; discriminate|].
  destruct (factorial_raises_iff_negative 20) as [_ [_ Hreturn]];
    [vm_compute; split; discriminate|].
  split; [apply Hraise; lia | apply Hreturn; lia].
Defined.

Lemma factorial_zero_from_34 (x : int) :
  34 <= x <= Int.max_signed -> factorial x = Ok 0.
Proof.
  intros Hx.
  replace x with (34 + Z.of_nat (Z.to_nat (x - 34))) in * by lia.
  generalize dependent (Z.to_nat (x - 34)). clear x.
  induction n as [|n IH]; intros Hx.
  - vm_compute. reflexivity.
  - rewrite factorial_step by lia.
    replace (34 + Z.of_nat (S n) - 1) with (34 + Z.of_nat n) by lia.
    rewrite IH by lia. cbn. unfold Int.mul. now rewrite Z.mul_0_r.
Qed.

Lemma choose_above (n k : nat) : (n < k)%nat -> choose n k = 0.
Proof.
  revert k. induction n as [|n IH]; intros [|k] Hk; cbn; try lia.
  rewrite !IH by lia. lia.
Qed.

Lemma choose_positive (n k : nat) : (k <= n)%nat -> 0 < choose n k.
Proof.
  revert k. induction n as [|n IH]; intros [|k] Hk; cbn; try lia.
  destruct (Nat.eq_dec k n) as [->|Hne].
  - pose proof (IH n ltac:(lia)). rewrite (choose_above n (S n)) by lia. lia.
  - pose proof (IH k ltac:(lia)). pose proof (IH (S k) ltac:(lia)). lia.
Qed.

(** X3: from 34 trials on, every 32-bit factorial of the numerator has
    wrapped to 0, so [combination(n, x)] is 0 or a division by zero for
    every [0 <= x <= n], never a binomial coefficient (which is at least 1);
    a Binomial with that many trials reports it as the weight of every
    in-support count. *)
Theorem combination_degenerate_from_34 (n x : int) (self : Binomial.t) :
  34 <= n <= Int.max_signed -> 0 <= x <= n ->
  Binomial.numberOfTrials self = n ->
  factorial n = Ok 0 /\
  (combination n x = Ok 0 \/ combination n x = Undefined) /\
  combination n x <> Ok (choose (Z.to_nat n) (Z.to_nat x)) /\
  (Binomial.getProbability self x = Undefined \/
   Binomial.getProbability self x
   = Ok (0 * pow (Binomial.probabilityOfSuccess self) x
         * pow (1 - Binomial.probabilityOfSuccess self) (n - x))%float).
Proof.
  intros Hn Hx Hself.
  assert (Hzero : factorial n = Ok 0) by (now apply factorial_zero_from_34).
  assert (Hcases : combination n x = Ok 0 \/ combination n x = Undefined).
  { unfold combination. rewrite Hzero. cbn.
    rewrite sub_in_range by int_range.
    destruct (factorial_returns (n - x)) as [a ->]; [lia|].
    destruct (factorial_returns x) as [b ->]; [lia|]. cbn.
    unfold Int.div. destruct (Int.mul a b =? 0); [now right|].
    cbn. now left. }
  split; [exact Hzero|]. split; [exact Hcases|]. split.
  - pose proof (choose_positive (Z.to_nat n) (Z.to_nat x) ltac:(lia)).
    destruct Hcases as [-> | ->]; [|discriminate].
    intros Heq. injection Heq as Heq. lia.
  - rewrite Binomial_getProbability_inside by (rewrite Hself; int_range).
    rewrite Hself. destruct Hcases as [-> | ->]; [now right | now left].
Qed.

Lemma combination_degenerate_from_34_witness :
  combination 34 1 = Ok 0 /\ combination 34 0 = Undefined.
Proof.
  destruct (combination_degenerate_from_34 34 1 (Binomial.Build 34 0.5%float))
    as (_ & H40 & _); [vm_compute; split; discriminate | lia | reflexivity |].
  destruct (combination_degenerate_from_34 34 0 (Binomial.Build 34 0.5%float))
    as (_ & H34 & _); [vm_compute; split; discriminate | lia | reflexivity |].
  split.
  - destruct H40 as [H|H]; [exact H | vm_compute in H; discriminate].
  - destruct H34 as [H|H]; [vm_compute in H; discriminate | exact H].
Defined.

Lemma factorial_raises_or_returns (x : int) :
  Int.in_range x ->
  factorial x = Throw factorial_error \/ returns (factorial x).
Proof.
  intros Hx. destruct (Z_lt_ge_dec x 0).
  - left. now apply factorial_negative.
  - right. apply factorial_returns. int_range.
Qed.

(** X4: [combination(n, x)] raises exactly when [n], [x] or [n - x] is
    negative, that is when [n < 0], [x < 0] or [x > n]; the error is always
    the one of [factorial]. *)
Theorem combination_raises_iff (n x : int) :
  Int.in_range n -> Int.in_range x ->
  (raises (combination n x) <-> n < 0 \/ x < 0 \/ n < x) /\
  (raises (combination n x) -> combination n x = Throw factorial_error).
Proof.
  intros Hn Hx.
  destruct (Z_lt_ge_dec n 0) as [Hneg|Hpos].
  { unfold combination. rewrite factorial_negative by assumption. cbn.
    split; [split; [auto | intros _; now eexists] | reflexivity]. }
  destruct (Z_lt_ge_dec x 0) as [Hxneg|Hxpos].
  { assert (E : combination n x = Throw factorial_error).
    { unfold combination.
      destruct (factorial_returns n) as [fn ->]; [int_range|]. cbn.
      destruct (factorial_raises_or_returns (Int.sub n x) (wrap_range _))
        as [-> | [fnx ->]]; [reflexivity|]. cbn.
      now rewrite factorial_negative. }
    rewrite E. split; [split; [auto | intros _; now eexists] | reflexivity]. }
  destruct (Z_lt_ge_dec n x) as [Hgt|Hle].
  { assert (E : combination n x = Throw factorial_error).
    { unfold combination.
      destruct (factorial_returns n) as [fn ->]; [int_range|]. cbn.
      rewrite sub_in_range by int_range.
      now rewrite factorial_negative by lia. }
    rewrite E. split; [split; [auto | intros _; now eexists] | reflexivity]. }
  pose proof (combination_not_raises n x Hn ltac:(lia)) as Hnot.
  split; [split; [intros H; contradiction | lia] | intros H; contradiction].
Qed.

Lemma combination_raises_iff_witness :
  combination 3 5 = Throw factorial_error /\
  combination 5 (-2) = Throw factorial_error /\
  ~ raises (combination 5 5).
Proof.
  destruct (combination_raises_iff 3 5) as [[_ H35] E35];
    [vm_compute; split; discriminate | vm_compute; split; discriminate |].
  destruct (combination_raises_iff 5 (-2)) as [[_ H52] E52];
    [vm_compute; split; discriminate | vm_compute; split; discriminate |].
  destruct (combination_raises_iff 5 5) as [[H55 _] _];
    [vm_compute; split; discriminate | vm_compute; split; discriminate |].
  split; [apply E35, H35; lia|]. split; [apply E52, H52; lia|].
  intros H. apply H55 in H. lia.
Defined.

(** X5: [combination(n, x)] and [combination(n, n - x)] are the same
    outcome for every [0 <= x <= n], also where the factorials have
    wrapped: the two calls divide the same numerator by the same product. *)
Theorem combination_symmetric (n x : int) :
  Int.in_range n -> 0 <= x <= n ->
  combination n (Int.sub n x) = combination n x.
Proof.
  intros Hn Hx. unfold combination.
  rewrite (sub_in_range n x) by int_range.
  rewrite (sub_in_range n (n - x)) by int_range.
  replace (n - (n - x)) with x by lia.
  destruct (factorial n) as [fn| |]; cbn; try reflexivity.
  destruct (factorial_returns x) as [fx ->]; [int_range|].
  destruct (factorial_returns (n - x)) as [fnx ->]; [int_range|]. cbn.
  unfold Int.mul. now rewrite Z.mul_comm.
Qed.

Lemma combination_symmetric_witness :
  combination 20 (Int.sub 20 3) = combination 20 3.
Proof.
  apply combination_symmetric; [vm_compute; split; discriminate | lia].
Defined.

(** X6: choosing nothing or everything: [combination(n, 0)] and
    [combination(n, n)] are 1 for [0 <= n <= 33], where the wrapped
    [factorial(n)] is not 0, and a division by zero from 34 on; so the
    first and the last in-support probability of a Binomial with 34 or more
    trials have no value. *)
Theorem combination_edges (n : int) (self : Binomial.t) :
  0 <= n <= Int.max_signed ->
  Binomial.numberOfTrials self = n ->
  (n <= 33 -> combination n 0 = Ok 1 /\ combination n n = Ok 1) /\
  (34 <= n ->
   combination n 0 = Undefined /\ combination n n = Undefined /\
   Binomial.getProbability self 0 = Undefined /\
   Binomial.getProbability self n = Undefined).
Proof.
  intros Hn Hself. split.
  - intros Hsmall. rewrite <- (Z2Nat.id n) by lia.
    assert (Hm : (Z.to_nat n <= 33)%nat) by lia.
    revert Hm. generalize (Z.to_nat n) as m. intros m Hm.
    do 34 (destruct m as [|m]; [split; vm_compute; reflexivity|]). lia.
  - intros Hbig.
    assert (Hzero : factorial n = Ok 0) by (apply factorial_zero_from_34; lia).
    assert (E0 : combination n 0 = Undefined).
    { unfold combination. rewrite sub_in_range by int_range.
      rewrite Z.sub_0_r, Hzero. reflexivity. }
    assert (En : combination n n = Undefined).
    { unfold combination. rewrite sub_in_range by int_range.
      rewrite Z.sub_diag, Hzero. reflexivity. }
    split; [exact E0|]. split; [exact En|].
    rewrite !Binomial_getProbability_inside by (rewrite Hself; int_range).
    rewrite Hself, E0, En. split; reflexivity.
Qed.

Lemma combination_edges_witness :
  combination 33 0 = Ok 1 /\ combination 33 33 = Ok 1 /\
  Binomial.getProbability (Binomial.Build 50 0.5%float) 50 = Undefined.
Proof.
  destruct (combination_edges 33 (Binomial.Build 33 0.5%float))
    as [H33 _]; [vm_compute; split; discriminate | reflexivity |].
  destruct (combination_edges 50 (Binomial.Build 50 0.5%float))
    as [_ H50]; [vm_compute; split; discriminate | reflexivity |].
  destruct H33 as [Ha Hb]; [lia|].
  destruct H50 as (_ & _ & _ & Hc); [lia|]. auto.
Defined.

(** ** Binomial: construction and setters *)

(** X7: the constructor checks the number of trials first: a negative
    number of trials is reported whatever the probability is, a probability
    below 0 or above 1 is reported only for a non-negative number of trials,
    and every other pair is stored as given. *)
Theorem Binomial_new_outcome (n : int) (p : double) :
  (n < 0 -> Binomial.new n p = Throw Binomial.trials_error) /\
  (0 <= n -> (p <? 0)%float || (1 <? p)%float = true ->
   Binomial.new n p = Throw Binomial.probability_error) /\
  (0 <= n -> (p <? 0)%float || (1 <? p)%float = false ->
   Binomial.new n p = Ok (Binomial.Build n p)).
Proof.
  unfold Binomial.new, construct, Binomial.checkDistribution, method_bind,
    Binomial.checkNumberOfTrials, Binomial.checkProbabilityOfSuccess. cbn.
  repeat split.
  - intros Hn. destruct (Z.ltb_spec n 0); [reflexivity | lia].
  - intros Hn Hp. destruct (Z.ltb_spec n 0); [lia|]. cbn. now rewrite Hp.
  - intros Hn Hp. destruct (Z.ltb_spec n 0); [lia|]. cbn. now rewrite Hp.
Qed.

Lemma Binomial_new_outcome_witness :
  Binomial.new (-1) 1.5%float = Throw Binomial.trials_error /\
  Binomial.new 10 1.5%float = Throw Binomial.probability_error /\
  Binomial.new 10 0.5%float = Ok (Binomial.Build 10 0.5%float).
Proof.
  destruct (Binomial_new_outcome (-1) 1.5%float) as (H1 & _).
  destruct (Binomial_new_outcome 10 1.5%float) as (_ & H2 & _).
  destruct (Binomial_new_outcome 10 0.5%float) as (_ & _ & H3).
  split; [apply H1; lia|].
  split; [apply H2; [lia | reflexivity] | apply H3; [lia | reflexivity]].
Defined.

Lemma Binomial_check_accepts (n : int) (p : double) :
  0 <= n -> (p <? 0)%float || (1 <? p)%float = false ->
  Binomial.checkDistribution (Binomial.Build n p)
  = (Ok tt, Binomial.Build n p).
Proof.
  intros Hn Hp. unfold Binomial.checkDistribution, method_bind,
    Binomial.checkNumberOfTrials, Binomial.checkProbabilityOfSuccess. cbn.
  destruct (Z.ltb_spec n 0); [lia|]. cbn. now rewrite Hp.
Qed.

Lemma Binomial_valid_probability (self : Binomial.t) :
  Binomial.valid self ->
  ((Binomial.probabilityOfSuccess self <? 0)%float
   || (1 <? Binomial.probabilityOfSuccess self)%float) = false.
Proof.
  intros Hvalid. destruct (Binomial_valid_inv self Hvalid) as (_ & -> & ->).
  reflexivity.
Qed.

(** X8: on a valid Binomial, chaining the two setters with acceptable
    arguments succeeds in either order and ends in the object that the
    constructor builds from the same arguments. *)
Theorem Binomial_setters_compose (self : Binomial.t) (n : int) (p : double) :
  Binomial.valid self ->
  0 <= n -> (p <? 0)%float || (1 <? p)%float = false ->
  (Binomial.setNumberOfTrials n then_ Binomial.setProbabilityOfSuccess p) self
  = (Ok tt, Binomial.Build n p) /\
  (Binomial.setProbabilityOfSuccess p then_ Binomial.setNumberOfTrials n) self
  = (Ok tt, Binomial.Build n p) /\
  Binomial.new n p = Ok (Binomial.Build n p).
Proof.
  intros Hvalid Hn Hp.
  pose proof (Binomial_valid_probability self Hvalid) as Hp0.
  destruct (Binomial_valid_inv self Hvalid) as (Hn0 & _ & _).
  unfold method_bind, Binomial.setNumberOfTrials,
    Binomial.setProbabilityOfSuccess, Binomial.new, construct.
  repeat split.
  - rewrite Binomial_check_accepts by (assumption || lia). cbn.
    now rewrite Binomial_check_accepts.
  - rewrite Binomial_check_accepts by (assumption || lia). cbn.
    now rewrite Binomial_check_accepts.
  - now rewrite Binomial_check_accepts.
Qed.

Lemma Binomial_setters_compose_witness :
  (Binomial.setNumberOfTrials 20
   then_ Binomial.setProbabilityOfSuccess 0.25%float)
    (Binomial.Build 10 0.5%float)
  = (Ok tt, Binomial.Build 20 0.25%float).
Proof.
  apply Binomial_setters_compose; [|lia | reflexivity].
  split; [vm_compute; split; discriminate | vm_compute; reflexivity].
Defined.

(** X9: a rejected value stays in the way. After [setNumberOfTrials] has
    raised on a negative number, every [setProbabilityOfSuccess] raises the
    trials error, even with an acceptable probability (which it stores all
    the same); after [setProbabilityOfSuccess] has raised, every
    [setNumberOfTrials] with a non-negative number raises the probability
    error. Only a new call of the setter that failed, with an acceptable
    argument, succeeds again. *)
Theorem Binomial_rejected_value_blocks_setters
  (self : Binomial.t) (n : int) (p : double) :
  Binomial.valid self ->
  n < 0 -> (p <? 0)%float || (1 <? p)%float = true ->
  let no_trials := snd (Binomial.setNumberOfTrials n self) in
  let no_probability := snd (Binomial.setProbabilityOfSuccess p self) in
  (forall p', Binomial.setProbabilityOfSuccess p' no_trials
              = (Throw Binomial.trials_error, Binomial.Build n p')) /\
  (forall n', 0 <= n' ->
     Binomial.setNumberOfTrials n' no_probability
     = (Throw Binomial.probability_error, Binomial.Build n' p)) /\
  (forall n', 0 <= n' ->
     Binomial.setNumberOfTrials n' no_trials
     = (Ok tt, Binomial.Build n' (Binomial.probabilityOfSuccess self))) /\
  (forall p', (p' <? 0)%float || (1 <? p')%float = false ->
     Binomial.setProbabilityOfSuccess p' no_probability
     = (Ok tt, Binomial.Build (Binomial.numberOfTrials self) p')).
Proof.
  intros Hvalid Hn Hp no_trials no_probability.
  pose proof (Binomial_valid_probability self Hvalid) as Hp0.
  destruct (Binomial_valid_inv self Hvalid) as (Hn0 & _ & _).
  assert (E1 : no_trials
               = Binomial.Build n (Binomial.probabilityOfSuccess self)).
  { unfold no_trials, Binomial.setNumberOfTrials, Binomial.checkDistribution,
      method_bind, Binomial.checkNumberOfTrials. cbn.
    destruct (Z.ltb_spec n 0); [reflexivity | lia]. }
  assert (E2 : no_probability
               = Binomial.Build (Binomial.numberOfTrials self) p).
  { unfold no_probability, Binomial.setProbabilityOfSuccess,
      Binomial.checkDistribution, method_bind, Binomial.checkNumberOfTrials,
      Binomial.checkProbabilityOfSuccess. cbn.
    destruct (Z.ltb_spec (Binomial.numberOfTrials self) 0); [lia|].
    cbn. now rewrite Hp. }
  rewrite E1, E2. clear E1 E2 no_trials no_probability.
  unfold Binomial.setProbabilityOfSuccess, Binomial.setNumberOfTrials. cbn.
  repeat split.
  - intros p'. unfold Binomial.checkDistribution, method_bind,
      Binomial.checkNumberOfTrials. cbn.
    destruct (Z.ltb_spec n 0); [reflexivity | lia].
  - intros n' Hn'. unfold Binomial.checkDistribution, method_bind,
      Binomial.checkNumberOfTrials, Binomial.checkProbabilityOfSuccess. cbn.
    destruct (Z.ltb_spec n' 0); [lia|]. cbn. now rewrite Hp.
  - intros n' Hn'. now apply Binomial_check_accepts.
  - intros p' Hp'. apply Binomial_check_accepts; [lia | assumption].
Qed.

Lemma Binomial_rejected_value_blocks_setters_witness :
  let broken :=
    snd (Binomial.setNumberOfTrials (-1) (Binomial.Build 10 0.5%float)) in
  Binomial.setProbabilityOfSuccess 0.25%float broken
  = (Throw Binomial.trials_error, Binomial.Build (-1) 0.25%float) /\
  Binomial.setNumberOfTrials 7 broken
  = (Ok tt, Binomial.Build 7 0.5%float).
Proof.
  intros broken.
  destruct (Binomial_rejected_value_blocks_setters
              (Binomial.Build 10 0.5%float) (-1) 1.5%float)
    as (H1 & _ & H3 & _).
  - split; [vm_compute; split; discriminate | vm_compute; reflexivity].
  - lia.
  - reflexivity.
  - split; [apply H1 | apply H3; lia].
Defined.

(** X10: with no trials at all the only possible count is 0: whatever the
    probability of success, [getProbability(0)] is 1 and every other count
    has probability 0. *)
Theorem Binomial_no_trials (p : double) (k : int) :
  Binomial.getProbability (Binomial.Build 0 p) k
  = Ok (if k =? 0 then 1%float else 0%float).
Proof.
  unfold Binomial.getProbability. cbn.
  destruct (Z.ltb_spec k 0); cbn.
  - destruct (Z.eqb_spec k 0); [lia | reflexivity].
  - destruct (Z.gtb_spec k 0); cbn.
    + destruct (Z.eqb_spec k 0); [lia | reflexivity].
    + assert (k = 0) as -> by lia. reflexivity.
Qed.

(** ** Geometric at the ends of its parameter domain *)

Lemma iter_mul_fixed (a : double) :
  (a * a)%float = a -> forall q, Pos.iter_op PrimFloat.mul q a = a.
Proof.
  intros Ha. induction q as [q IH|q IH|]; cbn.
  - now rewrite Ha, IH.
  - now rewrite Ha, IH.
  - reflexivity.
Qed.

Lemma pow_one (n : int) : pow 1 n = 1%float.
Proof.
  destruct n as [|q|q]; cbn; [reflexivity| |];
    now rewrite iter_mul_fixed by reflexivity.
Qed.

(** X11: a success probability of 0, which the constructor accepts, gives
    a mass function that is 0 at every count, 0 and the negative ones
    included, together with an infinite mean. *)
Theorem Geometric_success_impossible (n : int) :
  Geometric.new 0%float = Ok (Geometric.Build 0%float) /\
  Geometric.getProbability (Geometric.Build 0%float) n = 0%float /\
  Geometric.mean (Geometric.Build 0%float) = infinity.
Proof.
  split; [reflexivity|]. split; [|reflexivity].
  unfold Geometric.getProbability. cbn.
  destruct (n <? 0); [reflexivity|].
  change (1 - 0)%float with 1%float. now rewrite pow_one.
Qed.

(** X12: with a success probability of 1 the first trial succeeds: the
    count 1 has probability 1 and every count from 2 on has probability 0;
    the count 0, which the guard lets through, gets [(1-1)^-1 * 1], an
    infinite value. *)
Theorem Geometric_success_certain (n : int) :
  Int.in_range n ->
  Geometric.getProbability (Geometric.Build 1%float) 1 = 1%float /\
  (2 <= n -> Geometric.getProbability (Geometric.Build 1%float) n = 0%float) /\
  (n < 0 -> Geometric.getProbability (Geometric.Build 1%float) n = 0%float) /\
  Geometric.getProbability (Geometric.Build 1%float) 0 = infinity.
Proof.
  intros Hn. split; [reflexivity|]. split; [|split; [|reflexivity]].
  - intros Hbig. unfold Geometric.getProbability. cbn.
    destruct (Z.ltb_spec n 0); [lia|].
    rewrite sub_in_range by int_range.
    change (1 - 1)%float with 0%float.
    destruct (n - 1) as [|q|q] eqn:E; try lia.
    cbn. now rewrite iter_mul_fixed by reflexivity.
  - intros Hneg. unfold Geometric.getProbability.
    destruct (Z.ltb_spec n 0); [reflexivity | lia].
Qed.

Lemma Geometric_success_certain_witness :
  Geometric.getProbability (Geometric.Build 1%float) 5 = 0%float.
Proof.
  destruct (Geometric_success_certain 5) as (_ & H & _);
    [vm_compute; split; discriminate|].
  apply H. lia.
Defined.

(** ** DiscreteUniform *)

(** X13: the constructor and [setInterval] accept exactly the pairs with
    [firstValue <= lastValue], and [setInterval] depends on nothing but its
    arguments: called with such a pair on any object, also one that an
    earlier rejected call has left inverted, it succeeds and the object is
    the one the constructor builds. *)
Theorem DiscreteUniform_setInterval_outcome
  (self : DiscreteUniform.t) (a b : int) :
  (a <= b ->
   DiscreteUniform.new a b = Ok (DiscreteUniform.Build a b) /\
   DiscreteUniform.setInterval a b self = (Ok tt, DiscreteUniform.Build a b)) /\
  (b < a ->
   DiscreteUniform.new a b = Throw DiscreteUniform.interval_error /\
   DiscreteUniform.setInterval a b self
   = (Throw DiscreteUniform.interval_error, DiscreteUniform.Build a b)).
Proof.
  unfold DiscreteUniform.new, construct, DiscreteUniform.setInterval,
    DiscreteUniform.checkInterval. cbn.
  split; intros Hab; destruct (Z.gtb_spec a b); try lia; split; reflexivity.
Qed.

Lemma DiscreteUniform_setInterval_outcome_witness :
  let inverted := snd (DiscreteUniform.setInterval 6 1
                         (DiscreteUniform.Build 1 6)) in
  inverted = DiscreteUniform.Build 6 1 /\
  DiscreteUniform.setInterval 2 4 inverted
  = (Ok tt, DiscreteUniform.Build 2 4).
Proof.
  intros inverted.
  destruct (DiscreteUniform_setInterval_outcome (DiscreteUniform.Build 1 6) 6 1)
    as [_ Hbad].
  destruct (DiscreteUniform_setInterval_outcome inverted 2 4) as [Hgood _].
  split.
  - unfold inverted. destruct Hbad as [_ ->]; [lia | reflexivity].
  - apply Hgood. lia.
Defined.

(** X14: an interval reduced to one value [a] is the point mass at [a]:
    the probability is 1 at [a] and 0 elsewhere, the variance is 0, and the
    mean is [a] as long as [a + a] fits an [int]. *)
Theorem DiscreteUniform_single_value (a v : int) :
  let self := DiscreteUniform.Build a a in
  DiscreteUniform.getProbability self v
  = (if v =? a then 1%float else 0%float) /\
  DiscreteUniform.variance self = 0%float /\
  (Int.in_range (a + a) -> DiscreteUniform.mean self = of_int a).
Proof.
  intros self.
  assert (Hsub : Int.sub a a = 0)
    by (unfold Int.sub; now rewrite Z.sub_diag).
  split; [|split].
  - unfold DiscreteUniform.getProbability. cbn.
    destruct (Z.ltb_spec v a); cbn.
    + destruct (Z.eqb_spec v a); [lia | reflexivity].
    + destruct (Z.gtb_spec v a); cbn.
      * destruct (Z.eqb_spec v a); [lia | reflexivity].
      * destruct (Z.eqb_spec v a); [|lia]. now rewrite Hsub.
  - unfold DiscreteUniform.variance. cbn. rewrite Hsub.
    unfold Int.mul. now rewrite Z.mul_0_l.
  - intros Hfit. unfold DiscreteUniform.mean. cbn.
    rewrite add_in_range by assumption.
    replace (a + a) with (a * 2) by lia.
    now rewrite Z.quot_mul by lia.
Qed.

Lemma DiscreteUniform_single_value_witness :
  DiscreteUniform.mean (DiscreteUniform.Build (-7) (-7)) = of_int (-7).
Proof.
  destruct (DiscreteUniform_single_value (-7) 0) as (_ & _ & H).
  apply H. vm_compute. split; discriminate.
Defined.

(** X15: as long as [firstValue + lastValue] fits an [int], the mean of a
    valid DiscreteUniform is an integer of the interval: the truncated
    quotient never leaves [[firstValue, lastValue]], and it is at most one
    half away from the exact midpoint. *)
Theorem DiscreteUniform_mean_in_interval (self : DiscreteUniform.t) :
  DiscreteUniform.valid self ->
  let low := DiscreteUniform.firstValue self in
  let high := DiscreteUniform.lastValue self in
  Int.in_range (low + high) ->
  exists q : int,
    DiscreteUniform.mean self = of_int q /\
    low <= q <= high /\ -1 <= low + high - 2 * q <= 1.
Proof.
  intros Hvalid low high Hfit.
  destruct (DiscreteUniform_valid_inv self Hvalid) as (_ & Hle & _).
  fold low high in Hle.
  exists ((low + high) ÷ 2). split.
  - unfold DiscreteUniform.mean. fold low high.
    now rewrite add_in_range.
  - pose proof (Z.quot_rem' (low + high) 2) as Hqr.
    destruct (Z_lt_ge_dec (low + high) 0) as [Hneg|Hpos].
    + pose proof (Z.rem_nonpos (low + high) 2 ltac:(lia) ltac:(lia)).
      pose proof (Z.rem_bound_abs (low + high) 2 ltac:(lia)). lia.
    + pose proof (Z.rem_bound_pos (low + high) 2 ltac:(lia) ltac:(lia)). lia.
Qed.

Lemma DiscreteUniform_mean_in_interval_witness :
  exists q : int,
    DiscreteUniform.mean (DiscreteUniform.Build (-4) 1) = of_int q /\
    -4 <= q <= 1 /\ -1 <= -4 + 1 - 2 * q <= 1.
Proof.
  apply (DiscreteUniform_mean_in_interval (DiscreteUniform.Build (-4) 1)).
  - repeat split; vm_compute; discriminate.
  - vm_compute. split; discriminate.
Defined.

(** ** [Statistics<int>]: the in-place sort of [median] *)

(** Arithmetic on the half of a size. *)
Ltac halves n :=
  pose proof (Nat.div_mod_eq n 2);
  pose proof (Nat.mod_upper_bound n 2 ltac:(lia));
  pose proof (Nat2Z.inj_mod n 2); pose proof (Nat2Z.inj_div n 2);
  Z.to_euclidean_division_equations; lia.

Lemma insert_sorted_permutation (x : int) (l : list int) :
  Statistics.insert_sorted x l ≡ₚ x :: l.
Proof.
  induction l as [|y l IH]; cbn; [reflexivity|].
  destruct (x <? y); [reflexivity|].
  rewrite IH. apply Permutation_swap.
Qed.

Lemma sort_permutation (l : list int) : Statistics.sort l ≡ₚ l.
Proof.
  induction l as [|x l IH]; cbn; [reflexivity|].
  fold (Statistics.sort l). now rewrite insert_sorted_permutation, IH.
Qed.

Lemma insert_sorted_StronglySorted (x : int) (l : list int) :
  StronglySorted Z.le l -> StronglySorted Z.le (Statistics.insert_sorted x l).
Proof.
  induction 1 as [|y l Hl IH Hy]; cbn.
  - repeat constructor.
  - destruct (Z.ltb_spec x y).
    + constructor; [now constructor|].
      constructor; [lia|]. eapply Forall_impl; [exact Hy|]. cbn. lia.
    + constructor; [exact IH|].
      rewrite insert_sorted_permutation. constructor; [lia | exact Hy].
Qed.

Lemma sort_StronglySorted (l : list int) :
  StronglySorted Z.le (Statistics.sort l).
Proof.
  induction l as [|x l IH]; cbn; [constructor|].
  now apply insert_sorted_StronglySorted.
Qed.

(** The ascending arrangement of a sample is unique, so [sort] does not
    depend on the order in which the sample is given. *)
Lemma sort_of_permutation (l l' : list int) :
  l ≡ₚ l' -> Statistics.sort l = Statistics.sort l'.
Proof.
  intros Hperm.
  apply (StronglySorted_unique Z.le); try apply sort_StronglySorted.
  now rewrite !sort_permutation.
Qed.

Lemma sort_idempotent (l : list int) :
  Statistics.sort (Statistics.sort l) = Statistics.sort l.
Proof. apply sort_of_permutation, sort_permutation. Qed.

Lemma StronglySorted_lookup (l : list int) :
  StronglySorted Z.le l ->
  forall (i j : nat) (a b : int),
    (i < j)%nat -> l !! i = Some a -> l !! j = Some b -> a <= b.
Proof.
  induction 1 as [|x l Hl IH Hx]; intros i j a b Hij Ha Hb.
  - discriminate.
  - destruct j as [|j]; [lia|]. cbn in Hb.
    destruct i as [|i]; cbn in Ha.
    + injection Ha as <-. rewrite Forall_forall in Hx.
      apply Hx. eapply list_elem_of_lookup_2. exact Hb.
    + apply (IH i j); auto; lia.
Qed.

Lemma at_index_lookup (l : list int) (i : nat) (v : int) :
  l !! i = Some v -> Statistics.at_index l (Z.of_nat i) = Ok v.
Proof.
  intros Hv. unfold Statistics.at_index.
  destruct (Z.ltb_spec (Z.of_nat i) 0); [lia|].
  now rewrite Nat2Z.id, Hv.
Qed.

(** X16: on a non-empty sample of [int]s (of at most [INT_MAX] elements)
    [median] succeeds and leaves the stored values rearranged in ascending
    order, with the flag untouched; for an odd count it returns the middle
    element of that arrangement, and for an even count the two middle
    elements added as [int]s (so with wrap-around), converted and halved. *)
Theorem median_sorts_in_place (self : Statistics.t int) :
  Statistics.values self <> [] ->
  Z.of_nat (length (Statistics.values self)) <= Int.max_signed ->
  let sorted := Statistics.sort (Statistics.values self) in
  let n := length (Statistics.values self) in
  snd (Statistics.median self)
  = Statistics.Build sorted (Statistics.populationData self) /\
  StronglySorted Z.le sorted /\ sorted ≡ₚ Statistics.values self /\
  ((n mod 2 = 1)%nat ->
   exists v : int,
     sorted !! (n / 2)%nat = Some v /\
     fst (Statistics.median self) = Ok (of_int v)) /\
  ((n mod 2 = 0)%nat ->
   exists a b : int,
     sorted !! (n / 2 - 1)%nat = Some a /\ sorted !! (n / 2)%nat = Some b /\
     a <= b /\
     fst (Statistics.median self) = Ok (of_int (Int.add a b) / 2)%float).
Proof.
  intros Hne Hlen sorted n.
  assert (Hsorted : StronglySorted Z.le sorted) by apply sort_StronglySorted.
  assert (Hperm : sorted ≡ₚ Statistics.values self) by apply sort_permutation.
  assert (Hn : length sorted = n) by (unfold n; now rewrite Hperm).
  assert (Hpos : (0 < n)%nat).
  { unfold n. destruct (Statistics.values self); [congruence | cbn; lia]. }
  assert (Hmax : Z.of_nat n <= 2 ^ 31 - 1) by exact Hlen.
  clearbody n.
  assert (Hcheck : Statistics.ensureNotEmpty self = Ok tt).
  { unfold Statistics.ensureNotEmpty.
    destruct (Statistics.values self); [congruence | reflexivity]. }
  assert (Hmid : Int.wrap (Z.of_nat n / 2) = Z.of_nat (n / 2)).
  { rewrite wrap_in_range; [now rewrite Nat2Z.inj_div|].
    unfold Int.in_range, Int.min_signed, Int.max_signed. halves n. }
  assert (Hlt : (n / 2 < length sorted)%nat) by (rewrite Hn; halves n).
  destruct (lookup_lt_is_Some_2 sorted (n / 2) Hlt) as [b Hb].
  unfold Statistics.median. rewrite Hcheck. cbn [Statistics.values fst snd].
  fold sorted. rewrite Hn, Hmid.
  split; [reflexivity|]. split; [exact Hsorted|]. split; [exact Hperm|].
  split.
  - intros Hodd. exists b. split; [exact Hb|].
    destruct (Z.eqb_spec (Z.of_nat n mod 2) 0) as [Heven|_];
      [exfalso; halves n|].
    now rewrite (at_index_lookup _ _ _ Hb).
  - intros Heven.
    assert (Hhalf : (1 <= n / 2)%nat) by halves n.
    assert (Hlt' : (n / 2 - 1 < length sorted)%nat) by lia.
    destruct (lookup_lt_is_Some_2 sorted (n / 2 - 1) Hlt') as [a Ha].
    exists a, b. split; [exact Ha|]. split; [exact Hb|]. split.
    + apply (StronglySorted_lookup sorted Hsorted (n / 2 - 1)%nat (n / 2)%nat);
        auto; lia.
    + destruct (Z.eqb_spec (Z.of_nat n mod 2) 0) as [_|Hodd];
        [|exfalso; halves n].
      rewrite sub_in_range
        by (unfold Int.in_range, Int.min_signed, Int.max_signed; halves n).
      replace (Z.of_nat (n / 2) - 1) with (Z.of_nat (n / 2 - 1)) by lia.
      now rewrite (at_index_lookup _ _ _ Ha), (at_index_lookup _ _ _ Hb).
Qed.

Lemma median_sorts_in_place_witness :
  let self := Statistics.Build ([4; 1; 3; 2] : list int) true in
  snd (Statistics.median self) = Statistics.Build [1; 2; 3; 4] true /\
  exists a b : int,
    Statistics.sort [4; 1; 3; 2] !! 1%nat = Some a /\
    Statistics.sort [4; 1; 3; 2] !! 2%nat = Some b /\ a <= b /\
    fst (Statistics.median self) = Ok (of_int (Int.add a b) / 2)%float.
Proof.
  intros self.
  destruct (median_sorts_in_place self) as (Hstate & _ & _ & _ & Heven).
  - discriminate.
  - vm_compute. discriminate.
  - split; [exact Hstate|]. apply Heven. reflexivity.
Defined.

(** [median] reads its sample only through [sort] and the emptiness
    check. *)
Lemma median_reads_sorted (l l' : list int) (populationData : bool) :
  Statistics.sort l = Statistics.sort l' -> (l = [] <-> l' = []) ->
  Statistics.median (Statistics.Build l populationData)
  = Statistics.median (Statistics.Build l' populationData).
Proof.
  intros Hsort Hempty. unfold Statistics.median, Statistics.ensureNotEmpty.
  cbn [Statistics.values Statistics.populationData]. rewrite Hsort.
  destruct l as [|x l], l' as [|x' l']; try reflexivity.
  - destruct Hempty as [Hempty _]. now specialize (Hempty eq_refl).
  - destruct Hempty as [_ Hempty]. now specialize (Hempty eq_refl).
Qed.

(** X17: the median of a sample of [int]s does not depend on the order in
    which the sample was given: two engines holding rearrangements of the
    same values return the same outcome and are left in the same state. *)
Theorem median_of_permutation (l l' : list int) (populationData : bool) :
  l ≡ₚ l' ->
  Statistics.median (Statistics.Build l populationData)
  = Statistics.median (Statistics.Build l' populationData).
Proof.
  intros Hperm. apply median_reads_sorted.
  - now apply sort_of_permutation.
  - split; intros ->; [|symmetry in Hperm]; now apply Permutation_nil in Hperm.
Qed.

Lemma median_of_permutation_witness :
  Statistics.median (Statistics.Build ([3; 1; 2] : list int) true)
  = Statistics.median (Statistics.Build ([2; 3; 1] : list int) true).
Proof.
  apply median_of_permutation.
  symmetry. apply (Permutation_cons_append [3; 1] 2).
Defined.

(** X18: calling [median] again changes nothing: the second call returns
    the outcome of the first and leaves the engine as the first call left
    it (sorted, or empty and untouched). *)
Theorem median_twice (self : Statistics.t int) :
  Statistics.median (snd (Statistics.median self))
  = Statistics.median self.
Proof.
  destruct self as [l flag]. destruct l as [|x l]; [reflexivity|].
  assert (Hfirst : snd (Statistics.median (Statistics.Build (x :: l) flag))
                   = Statistics.Build (Statistics.sort (x :: l)) flag)
    by reflexivity.
  rewrite Hfirst. apply median_reads_sorted; [apply sort_idempotent|].
  split; [|discriminate]. intros Hnil.
  pose proof (sort_permutation (x :: l)) as Hperm. rewrite Hnil in Hperm.
  now apply Permutation_nil in Hperm.
Qed.

(** ** [Statistics<int>]: the amplitude *)

Lemma minmax_from_spec (l : list int) :
  forall smallest largest : int,
    let r := Statistics.minmax_from smallest largest l in
    fst r ∈ smallest :: l /\ snd r ∈ largest :: l /\
    fst r <= smallest /\ largest <= snd r /\
    forall x, x ∈ l -> fst r <= x <= snd r.
Proof.
  induction l as [|y l IH]; intros smallest largest; cbn.
  - split; [left|]. split; [left|]. split; [lia|]. split; [lia|].
    intros x Hx. inversion Hx.
  - destruct (Z.ltb_spec y smallest), (Z.ltb_spec y largest).
    all: match goal with
         | IH : _ |- context [Statistics.minmax_from ?a ?b ?k] =>
             destruct (IH a b) as (Hlo & Hhi & Hle & Hge & Hall);
             set (r := Statistics.minmax_from a b k) in *; clearbody r
         end.
    all: split; [|split; [|split; [lia|split; [lia|]]]].
    all: try (intros x Hx; apply elem_of_cons in Hx as [->|Hx];
              [lia | now apply Hall]).
    all: try (apply elem_of_cons in Hlo as [->|Hlo];
              [first [left | right; left] | right; now right]).
    all: apply elem_of_cons in Hhi as [->|Hhi];
      [first [left | right; left] | right; now right].
Qed.

(** [amplitude] subtracts the least element from the greatest one. *)
Lemma amplitude_extremes (l : list int) (populationData : bool) :
  l <> [] ->
  exists lo hi : int,
    lo ∈ l /\ hi ∈ l /\ (forall v, v ∈ l -> lo <= v <= hi) /\
    Statistics.amplitude (Statistics.Build l populationData)
    = Ok (Int.sub hi lo).
Proof.
  destruct l as [|x l]; [congruence|]. intros _.
  destruct (minmax_from_spec l x x) as (Hlo & Hhi & Hle & Hge & Hall).
  unfold Statistics.amplitude, Statistics.ensureNotEmpty. cbn.
  destruct (Statistics.minmax_from x x l) as [lo hi]. cbn in *.
  exists lo, hi. repeat split; auto;
    apply elem_of_cons in H as [->|H]; try lia; now apply Hall.
Qed.

(** X19: the amplitude of a non-empty sample of [int]s is the difference,
    computed on [int], between an element that no element exceeds and one
    that exceeds no element; it is their exact, non-negative difference
    whenever that difference fits 32 bits. *)
Theorem amplitude_is_max_minus_min (self : Statistics.t int) :
  Statistics.values self <> [] ->
  exists lo hi : int,
    lo ∈ Statistics.values self /\ hi ∈ Statistics.values self /\
    (forall v, v ∈ Statistics.values self -> lo <= v <= hi) /\
    Statistics.amplitude self = Ok (Int.sub hi lo) /\
    (Int.in_range (hi - lo) ->
     Statistics.amplitude self = Ok (hi - lo) /\ 0 <= hi - lo).
Proof.
  intros Hne. destruct self as [l flag]. cbn in *.
  destruct (amplitude_extremes l flag Hne) as (lo & hi & Hlo & Hhi & Hall & E).
  exists lo, hi. repeat split; auto; try (now apply Hall).
  - rewrite E. now rewrite sub_in_range.
  - specialize (Hall lo Hlo). lia.
Qed.

Lemma amplitude_is_max_minus_min_witness :
  exists lo hi : int,
    lo ∈ [3; -2; 7; 0] /\ hi ∈ [3; -2; 7; 0] /\
    (forall v, v ∈ [3; -2; 7; 0] -> lo <= v <= hi) /\
    Statistics.amplitude (Statistics.Build ([3; -2; 7; 0] : list int) true)
    = Ok (Int.sub hi lo) /\
    (Int.in_range (hi - lo) ->
     Statistics.amplitude (Statistics.Build ([3; -2; 7; 0] : list int) true)
     = Ok (hi - lo) /\ 0 <= hi - lo).
Proof.
  apply (amplitude_is_max_minus_min
           (Statistics.Build ([3; -2; 7; 0] : list int) true)).
  discriminate.
Defined.

(** X20: the amplitude depends neither on the order of the sample nor on
    the flag; in particular the sort that [median] leaves behind does not
    change it. *)
Theorem amplitude_of_permutation (l l' : list int) (flag flag' : bool) :
  l ≡ₚ l' ->
  Statistics.amplitude (Statistics.Build l flag)
  = Statistics.amplitude (Statistics.Build l' flag') /\
  Statistics.amplitude (snd (Statistics.median (Statistics.Build l flag)))
  = Statistics.amplitude (Statistics.Build l flag).
Proof.
  assert (Hmain : forall (k k' : list int) (b b' : bool),
             k ≡ₚ k' ->
             Statistics.amplitude (Statistics.Build k b)
             = Statistics.amplitude (Statistics.Build k' b')).
  { intros k k' b b' Hperm.
    destruct k as [|x k].
    { apply Permutation_nil in Hperm. now subst. }
    assert (Hk' : k' <> []).
    { intros ->. symmetry in Hperm. now apply Permutation_nil in Hperm. }
    destruct (amplitude_extremes (x :: k) b ltac:(discriminate))
      as (lo & hi & Hlo & Hhi & Hall & ->).
    destruct (amplitude_extremes k' b' Hk')
      as (lo' & hi' & Hlo' & Hhi' & Hall' & ->).
    assert (lo = lo').
    { pose proof (Hall lo' ltac:(now rewrite Hperm)).
      pose proof (Hall' lo ltac:(now rewrite <- Hperm)). lia. }
    assert (hi = hi').
    { pose proof (Hall hi' ltac:(now rewrite Hperm)).
      pose proof (Hall' hi ltac:(now rewrite <- Hperm)). lia. }
    now subst. }
  intros Hperm. split; [now apply Hmain|].
  destruct l as [|x l]; [reflexivity|].
  change (snd (Statistics.median (Statistics.Build (x :: l) flag)))
    with (Statistics.Build (Statistics.sort (x :: l)) flag).
  apply Hmain, sort_permutation.
Qed.

Lemma amplitude_of_permutation_witness :
  Statistics.amplitude (Statistics.Build ([3; 1; 2] : list int) true)
  = Statistics.amplitude (Statistics.Build ([2; 3; 1] : list int) false).
Proof.
  apply amplitude_of_permutation.
  symmetry. apply (Permutation_cons_append [3; 1] 2).
Defined.

(** ** The mode of a sample with a single most frequent value *)

Section UniqueMode.
Context {T : Type} `{Countable T}.

(** X21: when one value occurs strictly more often than every other value
    of the sample (of at most [INT_MAX] elements), [mode] returns that
    value whatever the traversal order of the frequency table: the order
    only matters between tied values. *)
Theorem mode_unique
  (iteration : gmap T int -> list (T * int)) (self : Statistics.t T) (m : T) :
  (forall table, iteration table ≡ₚ map_to_list table) ->
  Z.of_nat (length (Statistics.values self)) <= Int.max_signed ->
  m ∈ Statistics.values self ->
  (forall v, v <> m ->
     Statistics.occurrences v (Statistics.values self)
     < Statistics.occurrences m (Statistics.values self)) ->
  Statistics.mode iteration self = Ok m.
Proof.
  intros Horder Hlen Hm Hstrict.
  unfold Statistics.mode, Statistics.ensureNotEmpty.
  destruct (Statistics.values self) as [|x0 l0] eqn:E; [inversion Hm|].
  rewrite <- E in *. cbn.
  set (frequency := Statistics.frequencies (Statistics.values self)).
  pose proof (frequencies_lookup (Statistics.values self) Hlen) as Hlookup.
  fold frequency in Hlookup.
  assert (Hentry : forall v c,
             (v, c) ∈ iteration frequency <-> frequency !! v = Some c).
  { intros v c. rewrite (Horder frequency). apply elem_of_map_to_list. }
  assert (Hin : (m, Statistics.occurrences m (Statistics.values self))
                ∈ iteration frequency).
  { apply Hentry. rewrite Hlookup. now destruct (decide _). }
  assert (Hnonempty : iteration frequency <> []).
  { intros Hnil. rewrite Hnil in Hin. inversion Hin. }
  destruct (max_element_spec snd (iteration frequency) Hnonempty)
    as ([m' c] & -> & Hin' & Hmax).
  cbn. f_equal. apply Hentry in Hin'. rewrite Hlookup in Hin'.
  destruct (decide (m' ∈ Statistics.values self)); [|discriminate].
  injection Hin' as <-.
  destruct (decide (m' = m)) as [->|Hne]; [reflexivity|].
  specialize (Hmax _ Hin). specialize (Hstrict m' Hne). cbn in Hmax. lia.
Qed.

End UniqueMode.

Lemma mode_unique_witness :
  Statistics.mode backward_iteration
                  (Statistics.Build ([1; 1; 2; 3] : list int) true) = Ok 1 /\
  Statistics.mode forward_iteration
                  (Statistics.Build ([1; 1; 2; 3] : list int) true) = Ok 1.
Proof.
  assert (Hstrict : forall v : int, v <> 1 ->
            Statistics.occurrences v [1; 1; 2; 3]
            < Statistics.occurrences 1 [1; 1; 2; 3]).
  { intros v Hv. unfold Statistics.occurrences.
    rewrite !filter_cons, filter_nil.
    repeat (destruct (decide _)); subst; cbn; first [lia | congruence]. }
  split; apply mode_unique; try exact Hstrict;
    try (vm_compute; discriminate); try (do 1 left).
  - intros table. unfold backward_iteration. apply reverse_Permutation.
  - intros table. reflexivity.
Defined.

(** ** Binomial at the ends of its parameter domain *)

(** X22: for up to 12 trials, where the coefficients are exact, a success
    probability of 0 puts the whole mass on the count 0 and a success
    probability of 1 puts it on the count [n]; every other count, inside
    or outside the support, has probability 0. *)
Theorem Binomial_sure_outcomes (n k : int) :
  0 <= n <= 12 ->
  Binomial.getProbability (Binomial.Build n 0%float) k
  = Ok (if k =? 0 then 1%float else 0%float) /\
  Binomial.getProbability (Binomial.Build n 1%float) k
  = Ok (if k =? n then 1%float else 0%float).
Proof.
  intros Hn.
  destruct (Z_lt_ge_dec k 0) as [Hneg|Hpos].
  { rewrite !Binomial_getProbability_outside by (cbn; lia).
    destruct (Z.eqb_spec k 0); [lia|].
    destruct (Z.eqb_spec k n); [lia|]. split; reflexivity. }
  destruct (Z_lt_ge_dec n k) as [Hout|Hin].
  { rewrite !Binomial_getProbability_outside by (cbn; lia).
    destruct (Z.eqb_spec k 0); [lia|].
    destruct (Z.eqb_spec k n); [lia|]. split; reflexivity. }
  rewrite <- (Z2Nat.id n) by lia. rewrite <- (Z2Nat.id k) by lia.
  assert (Hm : (Z.to_nat n <= 12)%nat) by lia.
  assert (Hj : (Z.to_nat k <= Z.to_nat n)%nat) by lia.
  revert Hm Hj. generalize (Z.to_nat k) as j, (Z.to_nat n) as m.
  intros j m Hm Hj.
  do 13 (destruct m as [|m];
         [do 13 (destruct j as [|j];
                 [first [exfalso; lia | split; vm_compute; reflexivity]|]);
          lia|]).
  lia.
Qed.

Lemma Binomial_sure_outcomes_witness :
  Binomial.getProbability (Binomial.Build 10 0%float) 0 = Ok 1%float /\
  Binomial.getProbability (Binomial.Build 10 1%float) 9 = Ok 0%float.
Proof.
  destruct (Binomial_sure_outcomes 10 0) as [H0 _]; [lia|].
  destruct (Binomial_sure_outcomes 10 9) as [_ H1]; [lia|].
  split; [exact H0 | exact H1].
Defined.

(** ** The variance of DiscreteUniform against the exact one *)

(** X23: a DiscreteUniform over [count = lastValue - firstValue + 1]
    consecutive integers has the exact variance [(count^2 - 1) / 12]; as
    long as [count^2 - 1] fits an [int], [variance()] is the integer part of
    that number, so it is never negative and falls short of the exact
    variance by less than 1. *)
Theorem DiscreteUniform_variance_integer_part (self : DiscreteUniform.t) :
  DiscreteUniform.valid self ->
  let count :=
    DiscreteUniform.lastValue self - DiscreteUniform.firstValue self + 1 in
  Int.in_range (count * count - 1) ->
  exists r : int,
    DiscreteUniform.variance self = of_int r /\
    0 <= r /\ 12 * r <= count * count - 1 < 12 * r + 12.
Proof.
  intros Hvalid count Hfit.
  destruct (DiscreteUniform_valid_inv self Hvalid) as (_ & Hle & _).
  set (low := DiscreteUniform.firstValue self) in *.
  set (high := DiscreteUniform.lastValue self) in *.
  assert (Hprod : (high - low) * (high - low + 2) = count * count - 1)
    by (unfold count; ring).
  exists ((count * count - 1) ÷ 12). split.
  - unfold DiscreteUniform.variance. fold low high.
    assert (Hd : Int.in_range (high - low))
      by (unfold Int.in_range, Int.min_signed, Int.max_signed in *; nia).
    assert (Hd2 : Int.in_range (high - low + 2))
      by (unfold Int.in_range, Int.min_signed, Int.max_signed in *; nia).
    rewrite (sub_in_range high low Hd), (add_in_range (high - low) 2 Hd2).
    rewrite mul_in_range by (now rewrite Hprod). now rewrite Hprod.
  - assert (Hnonneg : 0 <= count * count - 1) by (unfold count; nia).
    rewrite Z.quot_div_nonneg by lia.
    pose proof (Z.div_mod (count * count - 1) 12 ltac:(lia)).
    pose proof (Z.mod_pos_bound (count * count - 1) 12 ltac:(lia)).
    pose proof (Z.div_pos (count * count - 1) 12 Hnonneg ltac:(lia)). lia.
Qed.

Lemma DiscreteUniform_variance_integer_part_witness :
  exists r : int,
    DiscreteUniform.variance (DiscreteUniform.Build 1 6) = of_int r /\
    0 <= r /\ 12 * r <= (6 - 1 + 1) * (6 - 1 + 1) - 1 < 12 * r + 12.
Proof.
  apply (DiscreteUniform_variance_integer_part (DiscreteUniform.Build 1 6)).
  - repeat split; vm_compute; discriminate.
  - vm_compute. split; discriminate.
Defined.
